(** * Smart Classroom Scheduler: booking store and booking routes

    A shallow embedding of [shared/schema.ts] (the entities and the insert
    schemas with their refinement), of the in-memory store [MemStorage]
    (server/storage.ts) and of the room and booking handlers of
    [registerRoutes] (server/routes.ts), followed by the properties of the
    booking life cycle that the specification states about them.

    Conventions of the embedding:
    - a JavaScript [Map] is an association list kept in insertion order
      ([JsMap]), because [Array.from(map.values())] exposes that order;
    - [async] methods are run to completion one at a time, so a method is a
      function from the store to a result and a new store;
    - [randomUUID()] and [new Date()] are inputs of the operation that draws
      them (record [Env]);
    - strings are compared the way [<], [<=], [>], [>=] and [===] compare
      JavaScript strings: code unit by code unit;
    - [undefined] is [None]; a nullable column is an [option] of its own. *)

From Stdlib Require Import String Ascii List ZArith NArith Bool Lia Permutation.
From Stdlib Require Import Sorted.
Import ListNotations.

Local Open Scope string_scope.
Local Open Scope Z_scope.

(** ** JavaScript strings, numbers and maps *)

Module Js.

(** [a < b], [a <= b], [a > b], [a >= b] on two strings. *)
Definition lt (a b : string) : bool := String.ltb a b.
Definition le (a b : string) : bool := String.leb a b.
Definition gt (a b : string) : bool := String.ltb b a.
Definition ge (a b : string) : bool := String.leb b a.

(** Truthiness of an optional string: [undefined] and the empty string are
    falsy. *)
Definition truthy (o : option string) : bool :=
  match o with
  | None => false
  | Some s => negb (String.eqb s EmptyString)
  end.

(** A number is an integer or [NaN].  Fractions, infinities and rounding
    are outside the embedding. *)
Definition num := option Z.
Definition NaN : num := None.

Definition mul (a b : num) : num :=
  match a, b with Some x, Some y => Some (x * y) | _, _ => None end.
Definition add (a b : num) : num :=
  match a, b with Some x, Some y => Some (x + y) | _, _ => None end.
Definition sub (a b : num) : num :=
  match a, b with Some x, Some y => Some (x - y) | _, _ => None end.
(** [a > b] is false as soon as one side is [NaN]. *)
Definition num_gt (a b : num) : bool :=
  match a, b with Some x, Some y => Z.gtb x y | _, _ => false end.

Definition is_digit (c : ascii) : bool :=
  (N.leb 48 (N_of_ascii c) && N.leb (N_of_ascii c) 57)%bool.
Definition digit_val (c : ascii) : Z := Z.of_N (N_of_ascii c) - 48.

Fixpoint decimal (acc : Z) (s : string) : num :=
  match s with
  | EmptyString => Some acc
  | String c s' =>
      if is_digit c then decimal (10 * acc + digit_val c) s' else None
  end.

(** [Number(s)] on the strings the time fields are meant to hold: a run of
    decimal digits gives its value and the empty string gives 0.  Every
    other string is sent to [NaN]; signs, blanks, fractions, exponents and
    radix prefixes, which [Number] also reads, are not modelled, and the
    statements below that depend on the value of a time are stated for
    HH:MM strings. *)
Definition Number (s : string) : num := decimal 0 s.

(** [s.split(sep)] for a one-character separator. *)
Fixpoint split (sep : ascii) (s : string) : list string :=
  match s with
  | EmptyString => [EmptyString]
  | String c s' =>
      if Ascii.eqb c sep then EmptyString :: split sep s'
      else match split sep s' with
           | [] => [String c EmptyString]
           | w :: ws => String c w :: ws
           end
  end.

(** Reading position [i] of an array of numbers; a missing element is
    [undefined], which arithmetic turns into [NaN]. *)
Definition at_num (l : list num) (i : nat) : num :=
  match nth_error l i with Some n => n | None => None end.

(** [array.sort(compare)]: a stable sort; [x] stays in front of [y]
    unless [compare x y] is positive ([NaN] counts as 0). *)
Section Sort.
Context {A : Type} (compare : A -> A -> num).

Fixpoint insert (x : A) (l : list A) : list A :=
  match l with
  | [] => [x]
  | y :: l' =>
      if num_gt (compare x y) (Some 0) then y :: insert x l'
      else x :: y :: l'
  end.

Definition sort (l : list A) : list A := fold_right insert [] l.
End Sort.

(** Days from 1970-01-01 to a civil date. *)
Definition daysFromCivil (y m d : Z) : Z :=
  let y' := if m <=? 2 then y - 1 else y in
  let era := y' / 400 in
  let yoe := y' - era * 400 in
  let doy := (153 * (if m <=? 2 then m + 9 else m - 3) + 2) / 5 + d - 1 in
  let doe := yoe * 365 + yoe / 4 - yoe / 100 + doy in
  era * 146097 + doe - 719468.

(** One reading of [new Date(s).getTime()], used where a closed example
    needs a date parser: "YYYY-MM-DD HH:MM" taken as UTC, in milliseconds;
    [NaN] for any other text. *)
Definition utcDateTime (s : string) : num :=
  if (Nat.eqb (String.length s) 16
      && String.eqb (substring 4 1 s) "-"
      && String.eqb (substring 7 1 s) "-"
      && String.eqb (substring 10 1 s) " "
      && String.eqb (substring 13 1 s) ":")%bool
  then
    match Number (substring 0 4 s), Number (substring 5 2 s),
          Number (substring 8 2 s), Number (substring 11 2 s),
          Number (substring 14 2 s) with
    | Some y, Some m, Some d, Some hh, Some mm =>
        if ((1 <=? m) && (m <=? 12) && (1 <=? d) && (d <=? 31)
            && (hh <=? 23) && (mm <=? 59))%bool
        then Some (((daysFromCivil y m d * 24 + hh) * 60 + mm) * 60000)
        else None
    | _, _, _, _, _ => None
    end
  else None.

End Js.

(** A [Map<string, V>]: entries in insertion order. *)
Module JsMap.
Section WithValue.
Context {V : Type}.

Definition t := list (string * V).

Definition empty : t := [].

Fixpoint get (m : t) (k : string) : option V :=
  match m with
  | [] => None
  | (k', v) :: m' => if String.eqb k' k then Some v else get m' k
  end.

Definition has (m : t) (k : string) : bool :=
  match get m k with Some _ => true | None => false end.

(** [set] keeps the position of a key that is already present and puts
    a new key last. *)
Fixpoint set (m : t) (k : string) (v : V) : t :=
  match m with
  | [] => [(k, v)]
  | (k', v') :: m' =>
      if String.eqb k' k then (k', v) :: m' else (k', v') :: set m' k v
  end.

(** [delete] answers whether the key was present. *)
Definition delete (m : t) (k : string) : bool * t :=
  (has m k, filter (fun kv => negb (String.eqb (fst kv) k)) m).

Definition keys (m : t) : list string := map fst m.
Definition values (m : t) : list V := map snd m.
End WithValue.
Arguments t V : clear implicits.
End JsMap.

(** ** shared/schema.ts: the entities *)

Inductive Role := faculty | student | admin.
Inductive Status := pending | confirmed | cancelled.

Definition Role_eqb (a b : Role) : bool :=
  match a, b with
  | faculty, faculty | student, student | admin, admin => true
  | _, _ => false
  end.

Definition Status_eqb (a b : Status) : bool :=
  match a, b with
  | pending, pending | confirmed, confirmed | cancelled, cancelled => true
  | _, _ => false
  end.

(** The text stored in the [status] column. *)
Definition Status_text (s : Status) : string :=
  match s with
  | pending => "pending"
  | confirmed => "confirmed"
  | cancelled => "cancelled"
  end.

Definition Status_of_text (s : string) : option Status :=
  if String.eqb s "pending" then Some pending
  else if String.eqb s "confirmed" then Some confirmed
  else if String.eqb s "cancelled" then Some cancelled
  else None.

Module User.
Record t := mk {
  id : string;
  username : string;
  email : string;
  password : string;
  name : string;
  role : Role;
  createdAt : Z
}.
End User.

Module Room.
Record t := mk {
  id : string;
  name : string;
  capacity : Z;
  createdAt : Z
}.
End Room.

Module Booking.
Record t := mk {
  id : string;
  roomId : string;
  facultyId : string;
  courseName : string;
  date : string;
  startTime : string;
  endTime : string;
  expectedAttendance : option Z;
  specialRequirements : option string;
  status : Status;
  createdAt : Z
}.
End Booking.

(** [Pick<User, 'id' | 'name' | 'email'>] *)
Module Faculty.
Record t := mk {
  id : string;
  name : string;
  email : string
}.
End Faculty.

(** [Booking & { room; faculty }] *)
Module BookingWithDetails.
Record t := mk {
  booking : Booking.t;
  room : Room.t;
  faculty : Faculty.t
}.
End BookingWithDetails.

(** [InsertUser]: the user columns without [id] and [createdAt]; [role] has
    a column default and is optional. *)
Module InsertUser.
Record t := mk {
  username : string;
  email : string;
  password : string;
  name : string;
  role : option Role
}.
End InsertUser.

Module InsertRoom.
Record t := mk {
  name : string;
  capacity : Z
}.
End InsertRoom.

(** [InsertBooking]: the nullable columns and [status] (which has a column
    default) are optional; a nullable column may also be given as [null]. *)
Module InsertBooking.
Record t := mk {
  roomId : string;
  facultyId : string;
  courseName : string;
  date : string;
  startTime : string;
  endTime : string;
  expectedAttendance : option (option Z);
  specialRequirements : option (option string);
  status : option Status
}.
End InsertBooking.

(** [Partial<InsertBooking>] *)
Module BookingUpdate.
Record t := mk {
  roomId : option string;
  facultyId : option string;
  courseName : option string;
  date : option string;
  startTime : option string;
  endTime : option string;
  expectedAttendance : option (option Z);
  specialRequirements : option (option string);
  status : option Status
}.

Definition none : t := mk None None None None None None None None None.
End BookingUpdate.

(** ** Request bodies and the insert schemas *)

Unset Elimination Schemes.
Inductive json :=
| JNull
| JBool (b : bool)
| JNum (n : Z)
| JStr (s : string)
| JArr (items : list json)
| JObj (fields : list (string * json)).
Set Elimination Schemes.

(** A request body is a JSON object: a list of bindings in which the first
    binding of a key is the one in force, so that [{...body, k: v}] is
    [(k, v) :: body]. *)
Definition Body := list (string * json).

Fixpoint field (k : string) (o : Body) : option json :=
  match o with
  | [] => None
  | (k', v) :: o' => if String.eqb k' k then Some v else field k o'
  end.

(** The outcome of [schema.parse]: the parsed data, or a thrown [ZodError]. *)
Inductive Parsed (A : Type) :=
| Data (a : A)
| ZodError.
Arguments Data {A} a.
Arguments ZodError {A}.

Definition andThen {A B : Type} (p : Parsed A) (k : A -> Parsed B) : Parsed B :=
  match p with
  | Data a => k a
  | ZodError => ZodError
  end.

Notation "x <- p ;; k" := (andThen p (fun x => k))
  (at level 61, p at next level, right associativity).

Definition zString (v : option json) : Parsed string :=
  match v with
  | Some (JStr s) => Data s
  | _ => ZodError
  end.

(** An integer column: the generated schema takes the numbers of a
    four-byte integer, from -2147483648 to 2147483647. *)
Definition zInt (v : option json) : Parsed Z :=
  match v with
  | Some (JNum n) =>
      if ((-2147483648 <=? n) && (n <=? 2147483647))%bool then Data n
      else ZodError
  | _ => ZodError
  end.

Definition zOptional {A : Type} (z : option json -> Parsed A) (v : option json)
  : Parsed (option A) :=
  match v with
  | None => Data None
  | Some _ => x <- z v ;; Data (Some x)
  end.

Definition zNullable {A : Type} (z : option json -> Parsed A) (v : option json)
  : Parsed (option A) :=
  match v with
  | Some JNull => Data None
  | _ => x <- z v ;; Data (Some x)
  end.

Definition zStatus (v : option json) : Parsed Status :=
  match v with
  | Some (JStr s) =>
      match Status_of_text s with
      | Some st => Data st
      | None => ZodError
      end
  | _ => ZodError
  end.

(** [insertRoomSchema.parse] *)
Definition insertRoomSchema (body : Body) : Parsed InsertRoom.t :=
  name <- zString (field "name" body) ;;
  capacity <- zInt (field "capacity" body) ;;
  Data (InsertRoom.mk name capacity).

(** Minutes of a time as the refinement computes them:
    [const [h, m] = time.split(':').map(Number); h * 60 + m]. *)
Definition minutesOf (time : string) : Js.num :=
  let parts := map Js.Number (Js.split ":" time) in
  Js.add (Js.mul (Js.at_num parts 0) (Some 60)) (Js.at_num parts 1).

(** The refinement of [insertBookingSchema]; it is vacuous unless both
    times are present and non-empty. *)
Definition endAfterStart (startTime endTime : option string) : bool :=
  if (Js.truthy startTime && Js.truthy endTime)%bool then
    match startTime, endTime with
    | Some s, Some e => Js.num_gt (minutesOf e) (minutesOf s)
    | _, _ => true
    end
  else true.

Definition refine {A : Type} (check : A -> bool) (a : A) : Parsed A :=
  if check a then Data a else ZodError.

(** [insertBookingSchema.parse]: the columns of [bookings] without [id] and
    [createdAt], then the refinement on the two times. *)
Definition insertBookingSchema (body : Body) : Parsed InsertBooking.t :=
  roomId <- zString (field "roomId" body) ;;
  facultyId <- zString (field "facultyId" body) ;;
  courseName <- zString (field "courseName" body) ;;
  date <- zString (field "date" body) ;;
  startTime <- zString (field "startTime" body) ;;
  endTime <- zString (field "endTime" body) ;;
  expectedAttendance <-
    zOptional (zNullable zInt) (field "expectedAttendance" body) ;;
  specialRequirements <-
    zOptional (zNullable zString) (field "specialRequirements" body) ;;
  status <- zOptional zStatus (field "status" body) ;;
  refine
    (fun data => endAfterStart (Some (InsertBooking.startTime data))
                               (Some (InsertBooking.endTime data)))
    (InsertBooking.mk roomId facultyId courseName date startTime endTime
       expectedAttendance specialRequirements status).

(** ** server/storage.ts: [MemStorage] *)

Record MemStorage := {
  users : JsMap.t User.t;
  rooms : JsMap.t Room.t;
  bookings : JsMap.t Booking.t
}.

(** The values an operation draws from the runtime. *)
Record Env := {
  randomUUID : string;
  now : Z
}.

(** The optional argument of [getBookings]. *)
Record Filters := {
  f_roomId : option string;
  f_facultyId : option string;
  f_status : option string;
  f_dateFrom : option string;
  f_dateTo : option string
}.

Definition getUser (st : MemStorage) (id : string) : option User.t :=
  JsMap.get (users st) id.

Definition getUserByUsername (st : MemStorage) (username : string) : option User.t :=
  find (fun user => String.eqb (User.username user) username)
       (JsMap.values (users st)).

Definition getUserByEmail (st : MemStorage) (email : string) : option User.t :=
  find (fun user => String.eqb (User.email user) email)
       (JsMap.values (users st)).

Definition createUser (env : Env) (st : MemStorage) (insertUser : InsertUser.t)
  : User.t * MemStorage :=
  let id := randomUUID env in
  let user :=
    User.mk id
      (InsertUser.username insertUser)
      (InsertUser.email insertUser)
      (InsertUser.password insertUser)
      (InsertUser.name insertUser)
      (match InsertUser.role insertUser with Some r => r | None => student end)
      (now env) in
  (user, {| users := JsMap.set (users st) id user;
            rooms := rooms st;
            bookings := bookings st |}).

Definition getRooms (st : MemStorage) : list Room.t :=
  JsMap.values (rooms st).

Definition getRoom (st : MemStorage) (id : string) : option Room.t :=
  JsMap.get (rooms st) id.

Definition createRoom (env : Env) (st : MemStorage) (insertRoom : InsertRoom.t)
  : Room.t * MemStorage :=
  let id := randomUUID env in
  let room :=
    Room.mk id (InsertRoom.name insertRoom) (InsertRoom.capacity insertRoom)
            (now env) in
  (room, {| users := users st;
            rooms := JsMap.set (rooms st) id room;
            bookings := bookings st |}).

Definition deleteRoom (st : MemStorage) (id : string) : bool * MemStorage :=
  let (existed, rooms') := JsMap.delete (rooms st) id in
  (existed, {| users := users st; rooms := rooms'; bookings := bookings st |}).

(** One optional filter: applied only when its value is truthy. *)
Definition filterIf (o : option string) (keep : string -> Booking.t -> bool)
    (l : list Booking.t) : list Booking.t :=
  match o with
  | Some v => if Js.truthy o then filter (keep v) l else l
  | None => l
  end.

Definition applyFilters (filters : option Filters) (l : list Booking.t)
  : list Booking.t :=
  match filters with
  | None => l
  | Some f =>
      let l := filterIf (f_roomId f)
                 (fun v b => String.eqb (Booking.roomId b) v) l in
      let l := filterIf (f_facultyId f)
                 (fun v b => String.eqb (Booking.facultyId b) v) l in
      let l := filterIf (f_status f)
                 (fun v b => String.eqb (Status_text (Booking.status b)) v) l in
      let l := filterIf (f_dateFrom f)
                 (fun v b => Js.ge (Booking.date b) v) l in
      filterIf (f_dateTo f) (fun v b => Js.le (Booking.date b) v) l
  end.

(** The join of one booking with its room and its faculty user; a booking
    whose room or user is missing yields nothing. *)
Definition withDetails (st : MemStorage) (booking : Booking.t)
  : option BookingWithDetails.t :=
  match JsMap.get (rooms st) (Booking.roomId booking),
        JsMap.get (users st) (Booking.facultyId booking) with
  | Some room, Some user =>
      Some (BookingWithDetails.mk booking room
              (Faculty.mk (User.id user) (User.name user) (User.email user)))
  | _, _ => None
  end.

Fixpoint joinAll (st : MemStorage) (l : list Booking.t)
  : list BookingWithDetails.t :=
  match l with
  | [] => []
  | booking :: l' =>
      match withDetails st booking with
      | Some d => d :: joinAll st l'
      | None => joinAll st l'
      end
  end.

Definition getBooking (st : MemStorage) (id : string)
  : option BookingWithDetails.t :=
  match JsMap.get (bookings st) id with
  | None => None
  | Some booking => withDetails st booking
  end.

(** [a ?? null] on a nullable optional field. *)
Definition orNull {A : Type} (o : option (option A)) : option A :=
  match o with Some v => v | None => None end.

Definition createBooking (env : Env) (st : MemStorage)
    (insertBooking : InsertBooking.t) : Booking.t * MemStorage :=
  let id := randomUUID env in
  let booking :=
    Booking.mk id
      (InsertBooking.roomId insertBooking)
      (InsertBooking.facultyId insertBooking)
      (InsertBooking.courseName insertBooking)
      (InsertBooking.date insertBooking)
      (InsertBooking.startTime insertBooking)
      (InsertBooking.endTime insertBooking)
      (orNull (InsertBooking.expectedAttendance insertBooking))
      (orNull (InsertBooking.specialRequirements insertBooking))
      (match InsertBooking.status insertBooking with
       | Some s => s
       | None => pending
       end)
      (now env) in
  (booking, {| users := users st;
               rooms := rooms st;
               bookings := JsMap.set (bookings st) id booking |}).

(** One key of [{ ...existing, ...update }]. *)
Definition spread {A : Type} (existing : A) (update : option A) : A :=
  match update with Some v => v | None => existing end.

Definition merge (existing : Booking.t) (u : BookingUpdate.t) : Booking.t :=
  Booking.mk
    (Booking.id existing)
    (spread (Booking.roomId existing) (BookingUpdate.roomId u))
    (spread (Booking.facultyId existing) (BookingUpdate.facultyId u))
    (spread (Booking.courseName existing) (BookingUpdate.courseName u))
    (spread (Booking.date existing) (BookingUpdate.date u))
    (spread (Booking.startTime existing) (BookingUpdate.startTime u))
    (spread (Booking.endTime existing) (BookingUpdate.endTime u))
    (spread (Booking.expectedAttendance existing)
            (BookingUpdate.expectedAttendance u))
    (spread (Booking.specialRequirements existing)
            (BookingUpdate.specialRequirements u))
    (spread (Booking.status existing) (BookingUpdate.status u))
    (Booking.createdAt existing).

Definition updateBooking (st : MemStorage) (id : string)
    (bookingUpdate : BookingUpdate.t) : option Booking.t * MemStorage :=
  match JsMap.get (bookings st) id with
  | None => (None, st)
  | Some existing =>
      let updated := merge existing bookingUpdate in
      (Some updated, {| users := users st;
                        rooms := rooms st;
                        bookings := JsMap.set (bookings st) id updated |})
  end.

Definition deleteBooking (st : MemStorage) (id : string) : bool * MemStorage :=
  let (existed, bookings') := JsMap.delete (bookings st) id in
  (existed, {| users := users st; rooms := rooms st; bookings := bookings' |}).

(** ** server/routes.ts *)

(** What a handler sends: [res.status(code).json(payload)], a JSON error
    [{ message }] or an empty reply [res.status(code).send()]. *)
Inductive Response (A : Type) :=
| Json (code : Z) (payload : A)
| Message (code : Z) (message : string)
| Send (code : Z).
Arguments Json {A} code payload.
Arguments Message {A} code message.
Arguments Send {A} code.

(** [req.isAuthenticated() && req.user.role === r]; the session user is
    [None] when the request is not authenticated. *)
Definition hasRole (user : option User.t) (r : Role) : bool :=
  match user with
  | Some u => Role_eqb (User.role u) r
  | None => false
  end.

(** [req.user?.id === id] *)
Definition isUser (user : option User.t) (id : string) : bool :=
  match user with
  | Some u => String.eqb (User.id u) id
  | None => false
  end.

(** The three clauses of the conflict test on the four times. *)
Definition timesOverlap (newStart newEnd existingStart existingEnd : string) : bool :=
  ((Js.ge newStart existingStart && Js.lt newStart existingEnd)
   || (Js.gt newEnd existingStart && Js.le newEnd existingEnd)
   || (Js.le newStart existingStart && Js.ge newEnd existingEnd))%bool.

(** The callback of [existingBookings.some(...)]. *)
Definition conflictsWith (bookingData : InsertBooking.t)
    (existing : BookingWithDetails.t) : bool :=
  let e := BookingWithDetails.booking existing in
  if Status_eqb (Booking.status e) cancelled then false
  else timesOverlap (InsertBooking.startTime bookingData)
                    (InsertBooking.endTime bookingData)
                    (Booking.startTime e) (Booking.endTime e).

Definition POST_rooms (user : option User.t) (body : Body) (env : Env)
    (st : MemStorage) : Response Room.t * MemStorage :=
  if negb (hasRole user admin) then (Message 403 "Admin access required", st)
  else
    match insertRoomSchema body with
    | ZodError => (Message 400 "Invalid room data", st)
    | Data roomData =>
        let (room, st') := createRoom env st roomData in
        (Json 201 room, st')
    end.

Definition DELETE_room (user : option User.t) (id : string) (st : MemStorage)
  : Response unit * MemStorage :=
  if negb (hasRole user admin) then (Message 403 "Admin access required", st)
  else
    let (deleted, st') := deleteRoom st id in
    if deleted then (Send 204, st') else (Message 404 "Room not found", st').

(** The permission test shared by the update and the cancel handlers:
    an admin, or the faculty user the booking belongs to. *)
Definition mayEdit (user : option User.t) (booking : BookingWithDetails.t) : bool :=
  (hasRole user admin
   || isUser user (Booking.facultyId (BookingWithDetails.booking booking)))%bool.

(** [PUT /api/bookings/:id].  [insertBookingSchema] is what [refine]
    returns, an effects schema, which has no [partial] method: the call
    [insertBookingSchema.partial()] throws a [TypeError] before the body is
    read.  That is no [ZodError], so the [catch] answers 500, and the rest
    of the [try] block (the parse, [delete updateData.facultyId] and
    [storage.updateBooking]) is never run. *)
Definition PUT_booking (user : option User.t) (id : string) (body : Body)
    (st : MemStorage) : Response (option Booking.t) * MemStorage :=
  match user with
  | None => (Message 401 "Authentication required", st)
  | Some _ =>
      match getBooking st id with
      | None => (Message 404 "Booking not found", st)
      | Some booking =>
          if negb (mayEdit user booking) then (Message 403 "Access denied", st)
          else (Message 500 "Failed to update booking", st)
      end
  end.

Definition cancelUpdate : BookingUpdate.t :=
  BookingUpdate.mk None None None None None None None None (Some cancelled).

Definition DELETE_booking (user : option User.t) (id : string)
    (st : MemStorage) : Response unit * MemStorage :=
  match user with
  | None => (Message 401 "Authentication required", st)
  | Some _ =>
      match getBooking st id with
      | None => (Message 404 "Booking not found", st)
      | Some booking =>
          if negb (mayEdit user booking) then (Message 403 "Access denied", st)
          else
            let (_, st') := updateBooking st id cancelUpdate in
            (Send 204, st')
      end
  end.

(** The handlers that list bookings sort them with [new Date(...)];
    [getTime s] stands for [new Date(s).getTime()] and is left open: what
    follows holds for every date parser. *)
Section WithDate.

Variable getTime : string -> Js.num.

Definition startOf (b : BookingWithDetails.t) : Js.num :=
  let booking := BookingWithDetails.booking b in
  getTime (Booking.date booking ++ " " ++ Booking.startTime booking).

Definition byStart (a b : BookingWithDetails.t) : Js.num :=
  Js.sub (startOf a) (startOf b).

Definition getBookings (st : MemStorage) (filters : option Filters)
  : list BookingWithDetails.t :=
  let bookings := applyFilters filters (JsMap.values (bookings st)) in
  let bookingsWithDetails := joinAll st bookings in
  Js.sort byStart bookingsWithDetails.

(** The filter of the conflict check: the room and the single date. *)
Definition sameRoomAndDate (bookingData : InsertBooking.t) : Filters :=
  {| f_roomId := Some (InsertBooking.roomId bookingData);
     f_facultyId := None;
     f_status := None;
     f_dateFrom := Some (InsertBooking.date bookingData);
     f_dateTo := Some (InsertBooking.date bookingData) |}.

Definition hasConflict (st : MemStorage) (bookingData : InsertBooking.t) : bool :=
  existsb (conflictsWith bookingData)
          (getBookings st (Some (sameRoomAndDate bookingData))).

Definition POST_bookings (user : option User.t) (body : Body) (env : Env)
    (st : MemStorage) : Response Booking.t * MemStorage :=
  match user with
  | None => (Message 403 "Faculty access required", st)
  | Some u =>
      if negb (Role_eqb (User.role u) faculty)
      then (Message 403 "Faculty access required", st)
      else
        match insertBookingSchema (("facultyId", JStr (User.id u)) :: body) with
        | ZodError => (Message 400 "Invalid booking data", st)
        | Data bookingData =>
            if hasConflict st bookingData
            then (Message 409 "Room is already booked for the selected time slot", st)
            else
              let (booking, st') := createBooking env st bookingData in
              (Json 201 booking, st')
        end
  end.

(** [GET /api/bookings]: a faculty user without a [facultyId] query sees
    their own bookings, a student sees all of them. *)
Definition GET_bookings (user : option User.t) (query : Filters)
    (st : MemStorage) : Response (list BookingWithDetails.t) :=
  match user with
  | None => Message 401 "Authentication required"
  | Some u =>
      let run facultyId :=
        Json 200 (getBookings st
          (Some {| f_roomId := f_roomId query;
                   f_facultyId := facultyId;
                   f_status := f_status query;
                   f_dateFrom := f_dateFrom query;
                   f_dateTo := f_dateTo query |})) in
      let facultyId := f_facultyId query in
      if (Role_eqb (User.role u) faculty && negb (Js.truthy facultyId))%bool
      then run (Some (User.id u))
      else if Role_eqb (User.role u) student then run None
      else if (negb (Role_eqb (User.role u) admin) && Js.truthy facultyId
               && negb (isUser user (match facultyId with Some f => f | None => EmptyString end)))%bool
      then Message 403 "Cannot access other users' bookings"
      else run facultyId
  end.

Definition GET_booking (user : option User.t) (id : string)
    (st : MemStorage) : Response BookingWithDetails.t :=
  match user with
  | None => Message 401 "Authentication required"
  | Some u =>
      match getBooking st id with
      | None => Message 404 "Booking not found"
      | Some booking =>
          if (negb (Role_eqb (User.role u) admin)
              && negb (Role_eqb (User.role u) student)
              && negb (isUser user
                   (Booking.facultyId (BookingWithDetails.booking booking))))%bool
          then Message 403 "Access denied"
          else Json 200 booking
      end
  end.

(** *** Sequences of booking requests *)

Inductive Request :=
| Create (user : option User.t) (body : Body) (env : Env)
| Update (user : option User.t) (id : string) (body : Body).

Definition accepted {A : Type} (r : Response A) : bool :=
  match r with
  | Json code _ => (code =? 200) || (code =? 201)
  | _ => false
  end.

(** One request; the answer says whether it was accepted. *)
Definition step (st : MemStorage) (r : Request) : bool * MemStorage :=
  match r with
  | Create user body env =>
      let (res, st') := POST_bookings user body env st in (accepted res, st')
  | Update user id body =>
      let (res, st') := PUT_booking user id body st in (accepted res, st')
  end.

(** A run in which every request is accepted, and the store it ends in. *)
Fixpoint runAccepted (st : MemStorage) (rs : list Request) : option MemStorage :=
  match rs with
  | [] => Some st
  | r :: rs' =>
      let (ok, st') := step st r in
      if ok then runAccepted st' rs' else None
  end.

End WithDate.

(** Two stored bookings that the no-overlap rule forbids together: same
    room, same date, neither cancelled, and times that overlap. *)
Definition overlapping (a b : Booking.t) : bool :=
  (String.eqb (Booking.roomId a) (Booking.roomId b)
   && String.eqb (Booking.date a) (Booking.date b)
   && negb (Status_eqb (Booking.status a) cancelled)
   && negb (Status_eqb (Booking.status b) cancelled)
   && Js.lt (Booking.startTime a) (Booking.endTime b)
   && Js.gt (Booking.endTime a) (Booking.startTime b))%bool.

(** The syntax of a time of day: two digits, a colon, two digits, with
    hours up to 23 and minutes up to 59. *)
Definition isHHMM (s : string) : bool :=
  match s with
  | String h1 (String h2 (String c (String m1 (String m2 EmptyString)))) =>
      (Js.is_digit h1 && Js.is_digit h2 && Ascii.eqb c ":"
       && Js.is_digit m1 && Js.is_digit m2
       && (10 * Js.digit_val h1 + Js.digit_val h2 <=? 23)
       && (10 * Js.digit_val m1 + Js.digit_val m2 <=? 59))%bool
  | _ => false
  end.

(** Minutes since midnight of an HH:MM time, read off its digits. *)
Definition minutesSinceMidnight (s : string) : Z :=
  match s with
  | String h1 (String h2 (String _ (String m1 (String m2 _)))) =>
      (10 * Js.digit_val h1 + Js.digit_val h2) * 60
      + (10 * Js.digit_val m1 + Js.digit_val m2)
  | _ => 0
  end.

(** ** The constructor of [MemStorage] *)

Definition defaultRooms : list InsertRoom.t :=
  [ InsertRoom.mk "Room A101" 30;
    InsertRoom.mk "Room B205" 25;
    InsertRoom.mk "Lab C301" 20;
    InsertRoom.mk "Conference Room D401" 15;
    InsertRoom.mk "Auditorium E501" 100 ].

(** [initializeDefaultData]: one identifier and one creation time are
    drawn for each default room. *)
Definition initializeDefaultData (envs : list Env) (st : MemStorage) : MemStorage :=
  fold_left
    (fun st er =>
       let id := randomUUID (fst er) in
       let roomData :=
         Room.mk id (InsertRoom.name (snd er)) (InsertRoom.capacity (snd er))
                 (now (fst er)) in
       {| users := users st;
          rooms := JsMap.set (rooms st) id roomData;
          bookings := bookings st |})
    (combine envs defaultRooms) st.

Definition newMemStorage (envs : list Env) : MemStorage :=
  initializeDefaultData envs
    {| users := JsMap.empty; rooms := JsMap.empty; bookings := JsMap.empty |}.

(** ** Vocabulary of the statements *)

(** A booking with another status and every other field as it was. *)
Definition withStatus (s : Status) (b : Booking.t) : Booking.t :=
  Booking.mk (Booking.id b) (Booking.roomId b) (Booking.facultyId b)
    (Booking.courseName b) (Booking.date b) (Booking.startTime b)
    (Booking.endTime b) (Booking.expectedAttendance b)
    (Booking.specialRequirements b) s (Booking.createdAt b).

(** The no-overlap rule on a store: no two bookings stored under distinct
    identifiers are [overlapping]. *)
Definition noOverlap (st : MemStorage) : Prop :=
  forall ida idb a b,
    ida <> idb ->
    JsMap.get (bookings st) ida = Some a ->
    JsMap.get (bookings st) idb = Some b ->
    overlapping a b = false.





(** The status a creation payload asks for, if it names one. *)
Definition requestedStatus (body : Body) : option Status :=
  match field "status" body with
  | Some (JStr s) => Status_of_text s
  | _ => None
  end.

(** Two users that agree on what a listing shows of a user. *)
Definition samePublicData (u1 u2 : User.t) : Prop :=
  User.id u1 = User.id u2 /\ User.name u1 = User.name u2
  /\ User.email u1 = User.email u2.

(** Two stores that differ at most in the fields of their users that a
    listing does not show: passwords, user names, roles, creation times. *)
Definition samePublicStore (st1 st2 : MemStorage) : Prop :=
  rooms st1 = rooms st2
  /\ bookings st1 = bookings st2
  /\ Forall2 (fun e1 e2 => fst e1 = fst e2 /\ samePublicData (snd e1) (snd e2))
             (users st1) (users st2).

(** The number of rooms that carry a given name. *)
Definition roomsNamed (name : string) (st : MemStorage) : nat :=
  List.length (filter (fun r => String.eqb (Room.name r) name) (getRooms st)).

(** ** A small campus, for the closed examples *)

Module Campus.

Definition env (id : string) (t : Z) : Env := {| randomUUID := id; now := t |}.

Definition start : MemStorage :=
  newMemStorage
    [env "room-1" 0; env "room-2" 0; env "room-3" 0; env "room-4" 0;
     env "room-5" 0].

Definition register (id : string) (t : Z) (u : InsertUser.t)
    (st : MemStorage) : MemStorage :=
  snd (createUser (env id t) st u).

(** Three registered users: two faculty members and an administrator. *)
Definition store : MemStorage :=
  register "u-root" 3
    (InsertUser.mk "root" "root@campus.example" "scrypt-r" "Root" (Some admin))
    (register "u-bob" 2
       (InsertUser.mk "bob" "bob@campus.example" "scrypt-b" "Bob" (Some faculty))
       (register "u-alice" 1
          (InsertUser.mk "alice" "alice@campus.example" "scrypt-a" "Alice"
             (Some faculty))
          start)).

Definition alice : User.t :=
  User.mk "u-alice" "alice" "alice@campus.example" "scrypt-a" "Alice" faculty 1.
Definition bob : User.t :=
  User.mk "u-bob" "bob" "bob@campus.example" "scrypt-b" "Bob" faculty 2.
Definition root : User.t :=
  User.mk "u-root" "root" "root@campus.example" "scrypt-r" "Root" admin 3.

(** A creation payload for one room on 2024-01-10. *)
Definition payload (roomId courseName startTime endTime : string) : Body :=
  [ ("roomId", JStr roomId);
    ("courseName", JStr courseName);
    ("date", JStr "2024-01-10");
    ("startTime", JStr startTime);
    ("endTime", JStr endTime) ].

Definition cs101 : Body := payload "room-1" "CS101" "09:00" "10:00".
Definition ma201 : Body := payload "room-1" "MA201" "10:00" "11:00".

(** Alice's booking of room 1 from 09:00 to 10:00, as it is stored. *)
Definition aliceBooking : Booking.t :=
  Booking.mk "b-1" "room-1" "u-alice" "CS101" "2024-01-10" "09:00" "10:00"
             None None pending 10.

(** The store after Alice's request. *)
Definition booked : MemStorage :=
  snd (POST_bookings Js.utcDateTime (Some alice) cs101 (env "b-1" 10) store).

End Campus.

Module Scenario.
Import Campus.

(** Bob's booking of room 1 from 10:00 to 11:00, right after Alice's. *)
Definition bobBooking : Booking.t :=
  Booking.mk "b-2" "room-1" "u-bob" "MA201" "2024-01-10" "10:00" "11:00"
             None None pending 11.

(** Alice books 09:00 to 10:00, Bob books 10:00 to 11:00. *)
Definition twoCreates : list Request :=
  [ Create (Some alice) cs101 (env "b-1" 10);
    Create (Some bob) ma201 (env "b-2" 11) ].

(** Bob then moves the start of his booking to 09:30. *)
Definition moveStart : Request :=
  Update (Some bob) "b-2" [("startTime", JStr "09:30")].

(** Two requests for a room identifier that no room carries. *)
Definition ghostCreates : list Request :=
  [ Create (Some alice) (payload "no-such-room" "CS101" "09:00" "10:00")
           (env "b-1" 10);
    Create (Some bob) (payload "no-such-room" "MA201" "09:30" "10:30")
           (env "b-2" 11) ].

(** The store after the administrator has deleted room 1, which Alice's
    booking refers to. *)
Definition roomGone : MemStorage :=
  snd (DELETE_room (Some root) "room-1" booked).

(** The store after Alice has cancelled her booking. *)
Definition aliceCancelled : MemStorage :=
  snd (DELETE_booking (Some alice) "b-1" booked).

(** An update that asks for the status "pending". *)
Definition backToPending : Body := [("status", JStr "pending")].

(** A second room with the name of room 1. *)
Definition sameName : Body :=
  [("name", JStr "Room A101"); ("capacity", JNum 30)].
End Scenario.

Module Instances.
Import Campus.

(** Alice's payload with a status of its own. *)
Definition confirmedPayload : Body := ("status", JStr "confirmed") :: cs101.

(** Alice's payload with Bob's identifier as [facultyId]. *)
Definition forBob : Body := ("facultyId", JStr "u-bob") :: cs101.


Definition aliceDetails : BookingWithDetails.t :=
  BookingWithDetails.mk aliceBooking
    (Room.mk "room-1" "Room A101" 30 0)
    (Faculty.mk "u-alice" "Alice" "alice@campus.example").

(** The store [booked] after every user has changed their password. *)
Definition rehashed : MemStorage :=
  {| users :=
       map (fun e =>
              let u := snd e in
              (fst e,
               User.mk (User.id u) (User.username u) (User.email u)
                 "scrypt-new" (User.name u) (User.role u) (User.createdAt u)))
           (users booked);
     rooms := rooms booked;
     bookings := bookings booked |}.

(** A booking for a room identifier that no room carries. *)
Definition ghost : InsertBooking.t :=
  InsertBooking.mk "no-such-room" "u-alice" "CS101" "2024-01-10" "09:00"
                   "10:00" None None None.
End Instances.

(** ** The rest of the store and of the room routes *)

(** [Partial<InsertRoom>] *)
Module RoomUpdate.
Record t := mk {
  name : option string;
  capacity : option Z
}.
End RoomUpdate.

(** [insertRoomSchema.partial().parse] *)
Definition insertRoomSchema_partial (body : Body) : Parsed RoomUpdate.t :=
  name <- zOptional zString (field "name" body) ;;
  capacity <- zOptional zInt (field "capacity" body) ;;
  Data (RoomUpdate.mk name capacity).

Definition updateRoom (st : MemStorage) (id : string)
    (roomUpdate : RoomUpdate.t) : option Room.t * MemStorage :=
  match JsMap.get (rooms st) id with
  | None => (None, st)
  | Some existing =>
      let updated :=
        Room.mk (Room.id existing)
          (spread (Room.name existing) (RoomUpdate.name roomUpdate))
          (spread (Room.capacity existing) (RoomUpdate.capacity roomUpdate))
          (Room.createdAt existing) in
      (Some updated, {| users := users st;
                        rooms := JsMap.set (rooms st) id updated;
                        bookings := bookings st |})
  end.

Definition GET_rooms (st : MemStorage) : Response (list Room.t) :=
  Json 200 (getRooms st).

Definition PUT_room (user : option User.t) (id : string) (body : Body)
    (st : MemStorage) : Response Room.t * MemStorage :=
  if negb (hasRole user admin) then (Message 403 "Admin access required", st)
  else
    match insertRoomSchema_partial body with
    | ZodError => (Message 400 "Invalid room data", st)
    | Data roomData =>
        let (room, st') := updateRoom st id roomData in
        match room with
        | None => (Message 404 "Room not found", st')
        | Some room => (Json 200 room, st')
        end
    end.

(** Every entry of the three maps is stored under the identifier it
    carries, and no key occurs twice. *)
Definition keyedBy {V : Type} (id : V -> string) (m : JsMap.t V) : Prop :=
  NoDup (JsMap.keys m) /\ Forall (fun e => id (snd e) = fst e) m.

Definition wellKeyed (st : MemStorage) : Prop :=
  keyedBy User.id (users st) /\ keyedBy Room.id (rooms st)
  /\ keyedBy Booking.id (bookings st).

(** The test one optional filter of [getBookings] puts on a booking. *)
Definition passes (o : option string) (keep : string -> Booking.t -> bool)
    (b : Booking.t) : bool :=
  match o with
  | Some v => if Js.truthy o then keep v b else true
  | None => true
  end.

(** The conjunction of the five filters. *)
Definition matchesFilters (filters : option Filters) (b : Booking.t) : bool :=
  match filters with
  | None => true
  | Some f =>
      (passes (f_roomId f) (fun v b => String.eqb (Booking.roomId b) v) b
       && passes (f_facultyId f) (fun v b => String.eqb (Booking.facultyId b) v) b
       && passes (f_status f)
            (fun v b => String.eqb (Status_text (Booking.status b)) v) b
       && passes (f_dateFrom f) (fun v b => Js.ge (Booking.date b) v) b
       && passes (f_dateTo f) (fun v b => Js.le (Booking.date b) v) b)%bool
  end.

(** ** The client *)

(** components/calendar/booking-modal.tsx: whether the dialog offers the
    cancel button. *)
Definition canCancelBooking (user : option User.t)
    (booking : BookingWithDetails.t) : bool :=
  let b := BookingWithDetails.booking booking in
  if Status_eqb (Booking.status b) cancelled then false
  else if hasRole user admin then true
  else if (hasRole user faculty && isUser user (Booking.facultyId b))%bool
       then true
  else false.

(** pages/dashboard.tsx: the four counters. *)
Record Stats := {
  totalBookings : nat;
  confirmedBookings : nat;
  pendingBookings : nat;
  cancelledBookings : nat
}.

Definition hasStatus (s : Status) (b : BookingWithDetails.t) : bool :=
  Status_eqb (Booking.status (BookingWithDetails.booking b)) s.

Definition stats (bookings : list BookingWithDetails.t) : Stats :=
  {| totalBookings := List.length bookings;
     confirmedBookings := List.length (filter (hasStatus confirmed) bookings);
     pendingBookings := List.length (filter (hasStatus pending) bookings);
     cancelledBookings := List.length (filter (hasStatus cancelled) bookings) |}.

(** pages/dashboard.tsx: the five most recent bookings.  A creation time
    crosses JSON as its ISO text, which [new Date] reads back to the same
    instant, so the comparison is on the stored instants. *)
Definition byNewest (a b : BookingWithDetails.t) : Js.num :=
  Js.sub (Some (Booking.createdAt (BookingWithDetails.booking b)))
         (Some (Booking.createdAt (BookingWithDetails.booking a))).

Definition recentBookings (bookings : list BookingWithDetails.t)
  : list BookingWithDetails.t :=
  firstn 5 (Js.sort byNewest bookings).

(** [a >= b] and [a < b] on two dates, which compare as numbers; both are
    false when a date is invalid. *)
Definition num_ge (a b : Js.num) : bool :=
  match a, b with Some x, Some y => Z.geb x y | _, _ => false end.
Definition num_lt (a b : Js.num) : bool :=
  match a, b with Some x, Some y => Z.ltb x y | _, _ => false end.

(** The "My Bookings" page: [dateOf s] stands for [new Date(s)] and [today]
    for the date of the current day. *)
Section MyBookings.
Variable dateOf : string -> Js.num.
Variable today : Js.num.

Definition upcomingBookings (bookings : list BookingWithDetails.t)
  : list BookingWithDetails.t :=
  filter (fun booking =>
            let b := BookingWithDetails.booking booking in
            (negb (Status_eqb (Booking.status b) cancelled)
             && num_ge (dateOf (Booking.date b)) today)%bool)
         bookings.

Definition pastBookings (bookings : list BookingWithDetails.t)
  : list BookingWithDetails.t :=
  filter (fun booking =>
            num_lt (dateOf (Booking.date (BookingWithDetails.booking booking)))
                   today)
         bookings.
End MyBookings.

(** components/layout/sidebar.tsx: the entries of the menu and the roles
    each is shown to. *)
Record NavItem := {
  nav_name : string;
  nav_href : string;
  nav_roles : list string
}.

Definition Role_text (r : Role) : string :=
  match r with
  | faculty => "faculty"
  | student => "student"
  | admin => "admin"
  end.

Definition navigation : list NavItem :=
  [ {| nav_name := "Dashboard"; nav_href := "/";
       nav_roles := ["faculty"; "student"; "admin"] |};
    {| nav_name := "Calendar"; nav_href := "/calendar";
       nav_roles := ["faculty"; "student"; "admin"] |};
    {| nav_name := "Book Room"; nav_href := "/book-room";
       nav_roles := ["faculty"] |};
    {| nav_name := "My Bookings"; nav_href := "/my-bookings";
       nav_roles := ["faculty"] |};
    {| nav_name := "Manage Rooms"; nav_href := "/manage-rooms";
       nav_roles := ["admin"] |};
    {| nav_name := "Profile"; nav_href := "/profile";
       nav_roles := ["faculty"; "student"; "admin"] |} ].

(** [navigation.filter(item => item.roles.includes(user?.role || ""))] *)
Definition filteredNavigation (user : option User.t) : list NavItem :=
  let role :=
    match user with
    | Some u => Role_text (User.role u)
    | None => EmptyString
    end in
  filter (fun item => existsb (String.eqb role) (nav_roles item)) navigation.

(** ** More instances on the campus *)

Module Further.
Import Campus.

(** The store after Alice's and Bob's adjacent bookings of room 1. *)
Definition twoBooked : MemStorage :=
  snd (POST_bookings Js.utcDateTime (Some bob) ma201 (env "b-2" 11) booked).

(** Alice's request as the insert schema parses it. *)
Definition aliceInsert : InsertBooking.t :=
  InsertBooking.mk "room-1" "u-alice" "CS101" "2024-01-10" "09:00" "10:00"
                   None None None.


(** Alice's payload with times that hold no colon. *)
Definition noColon : Body :=
  ("facultyId", JStr "u-alice") :: payload "room-1" "CS101" "0900" "1000".

(** Alice's payload with an empty start time. *)
Definition noStart : Body :=
  ("facultyId", JStr "u-alice") :: payload "room-1" "CS101" EmptyString "10:00".


Definition carol : InsertUser.t :=
  InsertUser.mk "carol" "carol@campus.example" "scrypt-c" "Carol" None.

Definition roomEnvs : list Env :=
  [env "room-1" 0; env "room-2" 0; env "room-3" 0; env "room-4" 0;
   env "room-5" 0].

(** A date parser for the day of a booking: midnight of that day. *)
Definition midnight (date : string) : Js.num :=
  Js.utcDateTime (date ++ " 00:00").
End Further.

(** * Properties *)

(** ** The order on strings *)

Lemma ascii_compare_refl (a : ascii) : Ascii.compare a a = Eq.
Proof. unfold Ascii.compare. apply N.compare_refl. Qed.

Lemma ascii_compare_lt_trans (a b c : ascii) :
  Ascii.compare a b = Lt -> Ascii.compare b c = Lt -> Ascii.compare a c = Lt.
Proof.
  unfold Ascii.compare. rewrite !N.compare_lt_iff. apply N.lt_trans.
Qed.

Lemma string_compare_refl (s : string) : String.compare s s = Eq.
Proof.
  induction s as [|a s IH]; simpl; [reflexivity|].
  now rewrite ascii_compare_refl.
Qed.

Lemma string_compare_lt_trans (a b c : string) :
  String.compare a b = Lt -> String.compare b c = Lt -> String.compare a c = Lt.
Proof.
  revert b c. induction a as [|x a IH]; intros [|y b] [|z c]; simpl;
    try congruence.
  destruct (Ascii.compare x y) eqn:Hxy; try discriminate.
  - apply Ascii.compare_eq_iff in Hxy. subst y.
    destruct (Ascii.compare x z) eqn:Hxz; try congruence.
    intros; eapply IH; eassumption.
  - intros _.
    destruct (Ascii.compare y z) eqn:Hyz; try discriminate.
    + apply Ascii.compare_eq_iff in Hyz. subst z. now rewrite Hxy.
    + intros _. now rewrite (ascii_compare_lt_trans _ _ _ Hxy Hyz).
Qed.

Lemma lt_irrefl (a : string) : Js.lt a a = false.
Proof. unfold Js.lt, String.ltb. now rewrite string_compare_refl. Qed.

Lemma lt_trans (a b c : string) :
  Js.lt a b = true -> Js.lt b c = true -> Js.lt a c = true.
Proof.
  unfold Js.lt, String.ltb. intros Hab Hbc.
  destruct (String.compare a b) eqn:E1; try discriminate.
  destruct (String.compare b c) eqn:E2; try discriminate.
  now rewrite (string_compare_lt_trans _ _ _ E1 E2).
Qed.

(** [a <= b] is the negation of [b < a]: the order is total. *)
Lemma le_not_lt (a b : string) : Js.le a b = negb (Js.lt b a).
Proof.
  unfold Js.le, Js.lt, String.leb, String.ltb.
  rewrite (String.compare_antisym b a).
  destruct (String.compare a b); reflexivity.
Qed.

Lemma le_lt_or_eq (a b : string) :
  Js.le a b = true <-> Js.lt a b = true \/ a = b.
Proof.
  unfold Js.le, Js.lt, String.leb, String.ltb.
  destruct (String.compare a b) eqn:E; split; intros H; try discriminate; auto.
  - right. now apply String.compare_eq_iff.
  - destruct H as [H|H]; [discriminate|]. subst. 
    rewrite string_compare_refl in E. discriminate.
Qed.

Lemma le_lt_trans (a b c : string) :
  Js.le a b = true -> Js.lt b c = true -> Js.lt a c = true.
Proof.
  intros H1 H2. apply le_lt_or_eq in H1. destruct H1 as [H1| ->]; auto.
  eapply lt_trans; eassumption.
Qed.

Lemma lt_le_trans (a b c : string) :
  Js.lt a b = true -> Js.le b c = true -> Js.lt a c = true.
Proof.
  intros H1 H2. apply le_lt_or_eq in H2. destruct H2 as [H2| <-]; auto.
  eapply lt_trans; eassumption.
Qed.

(** The three clauses against the single pair of inequalities, for any
    four strings that form two proper intervals in the string order. *)
Lemma timesOverlap_inequalities (newStart newEnd existingStart existingEnd : string) :
  Js.lt newStart newEnd = true ->
  Js.lt existingStart existingEnd = true ->
  timesOverlap newStart newEnd existingStart existingEnd
  = (Js.lt newStart existingEnd && Js.gt newEnd existingStart)%bool.
Proof.
  intros Hn He. unfold timesOverlap.
  change (Js.gt newEnd existingStart) with (Js.lt existingStart newEnd).
  change (Js.ge newStart existingStart) with (Js.le existingStart newStart).
  change (Js.ge newEnd existingEnd) with (Js.le existingEnd newEnd).
  destruct (Js.lt newStart existingEnd && Js.lt existingStart newEnd)%bool eqn:R.
  - apply andb_true_iff in R. destruct R as [R1 R2]. rewrite R1, R2. simpl.
    rewrite andb_true_r.
    destruct (Js.le existingStart newStart) eqn:A; [reflexivity|]. simpl.
    rewrite le_not_lt in A. apply negb_false_iff in A.
    destruct (Js.le newEnd existingEnd) eqn:B; [reflexivity|]. simpl.
    rewrite le_not_lt in B. apply negb_false_iff in B.
    rewrite (proj2 (le_lt_or_eq _ _) (or_introl A)).
    rewrite (proj2 (le_lt_or_eq _ _) (or_introl B)). reflexivity.
  - apply orb_false_iff. split; [apply orb_false_iff; split|].
    + destruct (Js.le existingStart newStart) eqn:A; [|reflexivity].
      destruct (Js.lt newStart existingEnd) eqn:B; [|reflexivity].
      rewrite (le_lt_trans _ _ _ A Hn) in R. discriminate.
    + destruct (Js.lt existingStart newEnd) eqn:A; [|reflexivity].
      destruct (Js.le newEnd existingEnd) eqn:B; [|reflexivity].
      rewrite (lt_le_trans _ _ _ Hn B) in R. discriminate.
    + destruct (Js.le newStart existingStart) eqn:A; [|reflexivity].
      destruct (Js.le existingEnd newEnd) eqn:B; [|reflexivity].
      rewrite (le_lt_trans _ _ _ A He), (lt_le_trans _ _ _ He B) in R.
      discriminate.
Qed.
(** ** Times of day *)

Lemma ascii_compare_digit_val (a b : ascii) :
  Ascii.compare a b = Z.compare (Js.digit_val a) (Js.digit_val b).
Proof.
  unfold Ascii.compare, Js.digit_val.
  rewrite <- (N2Z.inj_compare (N_of_ascii a) (N_of_ascii b)).
  destruct (Z.compare_spec (Z.of_N (N_of_ascii a)) (Z.of_N (N_of_ascii b)));
    symmetry; [apply Z.compare_eq_iff | apply Z.compare_lt_iff
              | apply Z.compare_gt_iff]; lia.
Qed.

Lemma is_digit_range (c : ascii) :
  Js.is_digit c = true -> 0 <= Js.digit_val c <= 9.
Proof.
  unfold Js.is_digit, Js.digit_val. intros H.
  apply andb_true_iff in H. destruct H as [H1 H2].
  apply N.leb_le in H1, H2. lia.
Qed.

Lemma digit_not_colon (c : ascii) :
  Js.is_digit c = true -> Ascii.eqb c ":" = false.
Proof.
  intros H. destruct (Ascii.eqb_spec c ":") as [->|]; [|reflexivity].
  vm_compute in H. discriminate.
Qed.

(** The shape of an HH:MM time, with the facts [isHHMM] checks. *)
Lemma isHHMM_inv (s : string) :
  isHHMM s = true ->
  exists h1 h2 m1 m2,
    s = String h1 (String h2 (String ":" (String m1 (String m2 EmptyString))))
    /\ Js.is_digit h1 = true /\ Js.is_digit h2 = true
    /\ Js.is_digit m1 = true /\ Js.is_digit m2 = true
    /\ 10 * Js.digit_val h1 + Js.digit_val h2 <= 23
    /\ 10 * Js.digit_val m1 + Js.digit_val m2 <= 59.
Proof.
  destruct s as [|h1 [|h2 [|c [|m1 [|m2 [|]]]]]];
    cbv beta iota delta [isHHMM]; try discriminate.
  rewrite !andb_true_iff.
  intros ((((((A & B) & C) & D) & E) & F) & G).
  apply Ascii.eqb_eq in C. subst c.
  exists h1, h2, m1, m2. repeat split; auto; now apply Z.leb_le.
Qed.

(** On an HH:MM time the refinement computes minutes since midnight. *)
Lemma minutesOf_HHMM (s : string) :
  isHHMM s = true -> minutesOf s = Some (minutesSinceMidnight s).
Proof.
  intros H. destruct (isHHMM_inv s H) as (h1 & h2 & m1 & m2 & -> & D1 & D2 & D3 & D4 & _).
  unfold minutesOf. simpl Js.split.
  rewrite (digit_not_colon _ D1), (digit_not_colon _ D2),
          (digit_not_colon _ D3), (digit_not_colon _ D4).
  simpl. unfold Js.Number. simpl. rewrite D1, D2, D3, D4. simpl.
  reflexivity.
Qed.

Lemma minutes_range (s : string) :
  isHHMM s = true -> 0 <= minutesSinceMidnight s < 1440.
Proof.
  intros H. destruct (isHHMM_inv s H) as (h1 & h2 & m1 & m2 & -> & D1 & D2 & D3 & D4 & Hh & Hm).
  apply is_digit_range in D1, D2, D3, D4.
  cbv beta iota delta [minutesSinceMidnight]. lia.
Qed.

(** On HH:MM times the string order is the order of the minutes. *)
Lemma lt_HHMM (a b : string) :
  isHHMM a = true -> isHHMM b = true ->
  Js.lt a b = (minutesSinceMidnight a <? minutesSinceMidnight b).
Proof.
  intros Ha Hb.
  destruct (isHHMM_inv a Ha) as (h1 & h2 & m1 & m2 & -> & D1 & D2 & D3 & D4 & Hh & Hm).
  destruct (isHHMM_inv b Hb) as (k1 & k2 & n1 & n2 & -> & E1 & E2 & E3 & E4 & Hk & Hn).
  apply is_digit_range in D1, D2, D3, D4, E1, E2, E3, E4.
  unfold Js.lt, String.ltb. cbv beta iota delta [minutesSinceMidnight].
  cbn [String.compare].
  rewrite !ascii_compare_digit_val.
  change (Js.digit_val ":" ?= Js.digit_val ":") with Eq.
  destruct (Z.compare_spec (Js.digit_val h1) (Js.digit_val k1));
  destruct (Z.compare_spec (Js.digit_val h2) (Js.digit_val k2));
  destruct (Z.compare_spec (Js.digit_val m1) (Js.digit_val n1));
  destruct (Z.compare_spec (Js.digit_val m2) (Js.digit_val n2));
  symmetry; first [apply Z.ltb_lt | apply Z.ltb_ge]; lia.
Qed.

Lemma HHMM_eq (a b : string) :
  isHHMM a = true -> isHHMM b = true ->
  minutesSinceMidnight a = minutesSinceMidnight b -> a = b.
Proof.
  intros Ha Hb E.
  pose proof (lt_HHMM a b Ha Hb) as H1. pose proof (lt_HHMM b a Hb Ha) as H2.
  rewrite E in H1. rewrite E in H2. rewrite Z.ltb_irrefl in H1, H2.
  unfold Js.lt, String.ltb in H1, H2.
  rewrite String.compare_antisym in H2.
  destruct (String.compare a b) eqn:C; try discriminate.
  now apply String.compare_eq_iff.
Qed.

(** ** Maps *)

Section MapFacts.
Context {V : Type}.
Implicit Types (m : JsMap.t V) (k : string) (v : V).

Lemma get_set_same m k v : JsMap.get (JsMap.set m k v) k = Some v.
Proof.
  induction m as [|[k' v'] m IH]; simpl.
  - now rewrite String.eqb_refl.
  - destruct (String.eqb k' k) eqn:E; simpl; rewrite E; auto.
Qed.

Lemma get_set_other m k k' v :
  k' <> k -> JsMap.get (JsMap.set m k v) k' = JsMap.get m k'.
Proof.
  intros N. induction m as [|[k0 v0] m IH]; simpl.
  - destruct (String.eqb_spec k k'); congruence.
  - destruct (String.eqb_spec k0 k) as [->|]; simpl.
    + destruct (String.eqb_spec k k'); congruence.
    + now rewrite IH.
Qed.

(** Overwriting a key that is present keeps every key in its place. *)
Lemma keys_set_present m k v v0 :
  JsMap.get m k = Some v0 -> JsMap.keys (JsMap.set m k v) = JsMap.keys m.
Proof.
  induction m as [|[k0 w] m IH]; simpl; [discriminate|].
  destruct (String.eqb k0 k) eqn:E; simpl; [reflexivity|].
  intros H. f_equal. now apply IH.
Qed.

(** A new key goes last. *)
Lemma keys_set_absent m k v :
  JsMap.get m k = None -> JsMap.keys (JsMap.set m k v) = (JsMap.keys m ++ [k])%list.
Proof.
  induction m as [|[k0 w] m IH]; simpl; [reflexivity|].
  destruct (String.eqb k0 k) eqn:E; simpl; [discriminate|].
  intros H. f_equal. now apply IH.
Qed.


Lemma In_values_set m k v x :
  In x (JsMap.values (JsMap.set m k v)) -> x = v \/ In x (JsMap.values m).
Proof.
  induction m as [|[k0 w] m IH]; simpl.
  - intros [<-|[]]; now left.
  - destruct (String.eqb k0 k); simpl.
    + intros [<-|H]; auto.
    + intros [<-|H]; auto. destruct (IH H); auto.
Qed.

Lemma get_delete_same m k : JsMap.get (snd (JsMap.delete m k)) k = None.
Proof.
  induction m as [|[k0 w] m IH]; simpl; [reflexivity|].
  destruct (String.eqb k0 k) eqn:E; simpl; [exact IH|].
  rewrite E. exact IH.
Qed.
End MapFacts.

(** ** Sorting *)

Section SortFacts.
Context {A : Type} (compare : A -> A -> Js.num).

Lemma insert_perm (x : A) (l : list A) :
  Permutation (Js.insert compare x l) (x :: l).
Proof.
  induction l as [|y l IH]; simpl; [reflexivity|].
  destruct (Js.num_gt (compare x y) (Some 0)); [|reflexivity].
  rewrite IH. apply perm_swap.
Qed.

(** Whatever the comparison answers, sorting only reorders. *)
Lemma sort_perm (l : list A) : Permutation (Js.sort compare l) l.
Proof.
  induction l as [|x l IH]; simpl; [reflexivity|].
  rewrite insert_perm. now constructor.
Qed.

Lemma In_sort (x : A) (l : list A) : In x (Js.sort compare l) <-> In x l.
Proof.
  split; apply Permutation_in; [|symmetry]; apply sort_perm.
Qed.

Lemma existsb_sort (p : A -> bool) (l : list A) :
  existsb p (Js.sort compare l) = existsb p l.
Proof.
  destruct (existsb p l) eqn:E.
  - apply existsb_exists in E. destruct E as (x & Hx & Px).
    apply existsb_exists. exists x. split; [now apply (proj2 (In_sort x l)) | assumption].
  - destruct (existsb p (Js.sort compare l)) eqn:E'; [|reflexivity].
    apply existsb_exists in E'. destruct E' as (x & Hx & Px).
    apply (proj1 (In_sort x l)) in Hx.
    assert (existsb p l = true)
      by (apply existsb_exists; exists x; split; assumption).
    congruence.
Qed.
End SortFacts.

(** ** Reading bookings *)

Lemma In_filterIf o keep l b : In b (filterIf o keep l) -> In b l.
Proof.
  unfold filterIf. destruct o as [v|]; [|auto].
  destruct (Js.truthy (Some v)); [|auto].
  intros H. now apply filter_In in H.
Qed.

Lemma In_applyFilters filters l b : In b (applyFilters filters l) -> In b l.
Proof.
  destruct filters as [f|]; simpl; [|auto].
  intros H. repeat apply In_filterIf in H. exact H.
Qed.

Lemma In_joinAll st l d :
  In d (joinAll st l) <-> exists b, In b l /\ withDetails st b = Some d.
Proof.
  induction l as [|b l IH]; simpl.
  - split; [tauto | intros (b & [] & _)].
  - destruct (withDetails st b) as [d'|] eqn:E; simpl; rewrite IH; split.
    + intros [<-|(b' & Hb & Hd)]; eauto.
    + intros (b' & [<-|Hb] & Hd); [left; congruence | eauto].
    + intros (b' & Hb & Hd); eauto.
    + intros (b' & [<-|Hb] & Hd); [congruence | eauto].
Qed.

(** Every element of a listing is the join of a stored booking. *)
Lemma In_getBookings getTime st filters d :
  In d (getBookings getTime st filters) ->
  exists b, In b (JsMap.values (bookings st)) /\ withDetails st b = Some d.
Proof.
  unfold getBookings. intros H. apply (proj1 (In_sort _ _ _)) in H.
  apply In_joinAll in H. destruct H as (b & Hb & Hd).
  exists b. split; [now apply In_applyFilters in Hb | assumption].
Qed.

Lemma withDetails_booking st b d :
  withDetails st b = Some d -> BookingWithDetails.booking d = b.
Proof.
  unfold withDetails.
  destruct (JsMap.get (rooms st) (Booking.roomId b)); [|discriminate].
  destruct (JsMap.get (users st) (Booking.facultyId b)); [|discriminate].
  now intros [= <-].
Qed.

Lemma withDetails_faculty st b d :
  withDetails st b = Some d ->
  exists user,
    getUser st (Booking.facultyId b) = Some user
    /\ BookingWithDetails.faculty d
       = Faculty.mk (User.id user) (User.name user) (User.email user).
Proof.
  unfold withDetails, getUser.
  destruct (JsMap.get (rooms st) (Booking.roomId b)); [|discriminate].
  destruct (JsMap.get (users st) (Booking.facultyId b)) as [user|];
    [|discriminate].
  intros [= <-]. now exists user.
Qed.

(** ** The conflict test *)

(** C2.  For a candidate and an existing interval given as zero-padded
    HH:MM times, each with its start before its end (in minutes since
    midnight), the three-clause conflict test answers true exactly when the
    candidate starts before the existing interval ends and ends after it
    starts; two intervals that only touch, at either boundary, do not
    conflict. *)
Theorem timesOverlap_half_open :
  forall newStart newEnd existingStart existingEnd : string,
    isHHMM newStart = true -> isHHMM newEnd = true ->
    isHHMM existingStart = true -> isHHMM existingEnd = true ->
    minutesSinceMidnight newStart < minutesSinceMidnight newEnd ->
    minutesSinceMidnight existingStart < minutesSinceMidnight existingEnd ->
    (timesOverlap newStart newEnd existingStart existingEnd = true
     <-> minutesSinceMidnight newStart < minutesSinceMidnight existingEnd
         /\ minutesSinceMidnight newEnd > minutesSinceMidnight existingStart)
    /\ (newEnd = existingStart ->
        timesOverlap newStart newEnd existingStart existingEnd = false)
    /\ (newStart = existingEnd ->
        timesOverlap newStart newEnd existingStart existingEnd = false).
Proof.
  intros ns ne es ee Hns Hne Hes Hee Hn He.
  assert (E : timesOverlap ns ne es ee
              = ((minutesSinceMidnight ns <? minutesSinceMidnight ee)
                 && (minutesSinceMidnight es <? minutesSinceMidnight ne))%bool).
  { rewrite timesOverlap_inequalities.
    - unfold Js.gt. fold (Js.lt es ne). now rewrite !lt_HHMM.
    - rewrite lt_HHMM by assumption. now apply Z.ltb_lt.
    - rewrite lt_HHMM by assumption. now apply Z.ltb_lt. }
  rewrite E. split; [split | split].
  - intros H. apply andb_true_iff in H. destruct H as [H1 H2].
    apply Z.ltb_lt in H1, H2. lia.
  - intros [H1 H2]. apply andb_true_iff. split; apply Z.ltb_lt; lia.
  - intros ->. rewrite Z.ltb_irrefl. apply andb_false_r.
  - intros ->. now rewrite Z.ltb_irrefl.
Qed.


(** ** Parsing a creation payload *)

Lemma andThen_Data {A B : Type} (p : Parsed A) (k : A -> Parsed B) (b : B) :
  andThen p k = Data b -> exists a, p = Data a /\ k a = Data b.
Proof. destruct p as [a|]; simpl; [eauto | discriminate]. Qed.

(** What an accepted payload tells about the parsed data. *)
Lemma insertBookingSchema_Data body data :
  insertBookingSchema body = Data data ->
  zString (field "roomId" body) = Data (InsertBooking.roomId data)
  /\ zString (field "facultyId" body) = Data (InsertBooking.facultyId data)
  /\ zString (field "courseName" body) = Data (InsertBooking.courseName data)
  /\ zString (field "date" body) = Data (InsertBooking.date data)
  /\ zString (field "startTime" body) = Data (InsertBooking.startTime data)
  /\ zString (field "endTime" body) = Data (InsertBooking.endTime data)
  /\ zOptional zStatus (field "status" body) = Data (InsertBooking.status data)
  /\ endAfterStart (Some (InsertBooking.startTime data))
                   (Some (InsertBooking.endTime data)) = true.
Proof.
  unfold insertBookingSchema. intros H.
  repeat match goal with
         | P : andThen _ _ = Data _ |- _ =>
             apply andThen_Data in P; destruct P as (? & ? & ?)
         end.
  match goal with
  | P : refine ?check ?a = Data _ |- _ =>
      unfold refine in P; destruct (check a) eqn:R; [|discriminate];
      injection P as <-
  end.
  simpl in *. repeat split; assumption.
Qed.

(** A payload whose two times fail the refinement is rejected, whatever
    its other fields hold. *)
Lemma insertBookingSchema_times body s e :
  field "startTime" body = Some (JStr s) ->
  field "endTime" body = Some (JStr e) ->
  endAfterStart (Some s) (Some e) = false ->
  insertBookingSchema body = ZodError.
Proof.
  intros Hs He R.
  destruct (insertBookingSchema body) as [data|] eqn:P; [|reflexivity].
  apply insertBookingSchema_Data in P.
  destruct P as (_ & _ & _ & _ & Ps & Pe & _ & R').
  rewrite Hs in Ps. rewrite He in Pe. simpl in Ps, Pe.
  injection Ps as Ps. injection Pe as Pe.
  rewrite <- Ps, <- Pe in R'. congruence.
Qed.

Lemma endAfterStart_HHMM s e :
  isHHMM s = true -> isHHMM e = true ->
  endAfterStart (Some s) (Some e)
  = (minutesSinceMidnight e >? minutesSinceMidnight s).
Proof.
  intros Hs He. unfold endAfterStart.
  rewrite (minutesOf_HHMM s Hs), (minutesOf_HHMM e He).
  destruct (isHHMM_inv s Hs) as (? & ? & ? & ? & -> & _).
  destruct (isHHMM_inv e He) as (? & ? & ? & ? & -> & _).
  reflexivity.
Qed.

(** ** Creating a booking *)

(** The only way [POST /api/bookings] answers with a JSON payload. *)
Lemma POST_bookings_Json getTime user body env st code b st' :
  POST_bookings getTime user body env st = (Json code b, st') ->
  exists u data,
    user = Some u /\ User.role u = faculty
    /\ insertBookingSchema (("facultyId", JStr (User.id u)) :: body) = Data data
    /\ hasConflict getTime st data = false
    /\ createBooking env st data = (b, st')
    /\ code = 201.
Proof.
  unfold POST_bookings. destruct user as [u|]; [|discriminate].
  destruct (Role_eqb (User.role u) faculty) eqn:R; simpl; [|discriminate].
  destruct (insertBookingSchema _) as [data|] eqn:P; [|discriminate].
  destruct (hasConflict getTime st data) eqn:C; [discriminate|].
  intros [= <- <- <-]. exists u, data. repeat split; auto.
  destruct (User.role u); (reflexivity || discriminate).
Qed.

Lemma createBooking_stored env st data b st' :
  createBooking env st data = (b, st') ->
  Booking.id b = randomUUID env
  /\ JsMap.get (bookings st') (Booking.id b) = Some b
  /\ users st' = users st /\ rooms st' = rooms st
  /\ bookings st' = JsMap.set (bookings st) (randomUUID env) b.
Proof.
  unfold createBooking. intros [= <- <-]. simpl.
  rewrite get_set_same. repeat split; reflexivity.
Qed.


(** C3, as the code has it.  The booking created by an accepted request
    carries the status the payload names ("pending", "confirmed" or
    "cancelled"), and "pending" when the payload names none; it is stored
    under its identifier. *)
Theorem POST_bookings_status :
  forall getTime user body env st code b st',
    POST_bookings getTime user body env st = (Json code b, st') ->
    Booking.status b
    = match requestedStatus body with Some s => s | None => pending end
    /\ JsMap.get (bookings st') (Booking.id b) = Some b.
Proof.
  intros getTime user body env st code b st' H.
  apply POST_bookings_Json in H.
  destruct H as (u & data & _ & _ & P & _ & C & _).
  apply insertBookingSchema_Data in P.
  destruct P as (_ & _ & _ & _ & _ & _ & S & _).
  pose proof (createBooking_stored _ _ _ _ _ C) as (_ & G & _).
  split; [|exact G].
  unfold createBooking in C. injection C as <- _. simpl.
  simpl in S. unfold requestedStatus.
  destruct (field "status" body) as [[| | |t| |]|]; simpl in S;
    try discriminate.
  - destruct (Status_of_text t); [|discriminate]. now injection S as <-.
  - now injection S as <-.
Qed.

Lemma field_cons k k' v (o : Body) :
  field k ((k', v) :: o) = if String.eqb k' k then Some v else field k o.
Proof. reflexivity. Qed.

Lemma insertBookingSchema_ext body1 body2 :
  (forall k, field k body1 = field k body2) ->
  insertBookingSchema body1 = insertBookingSchema body2.
Proof. intros H. unfold insertBookingSchema. now rewrite !H. Qed.

(** C8.  The booking created for a user carries that user's identifier as
    its [facultyId]; and the answer and the store do not depend on the
    [facultyId] of the payload: two payloads that agree on every other key
    are treated alike, so a foreign [facultyId] causes no error. *)
Theorem POST_bookings_facultyId :
  forall getTime u body env st,
    (forall code b st',
        POST_bookings getTime (Some u) body env st = (Json code b, st') ->
        Booking.facultyId b = User.id u
        /\ JsMap.get (bookings st') (Booking.id b) = Some b)
    /\ (forall body',
           (forall k, k <> "facultyId" -> field k body' = field k body) ->
           POST_bookings getTime (Some u) body' env st
           = POST_bookings getTime (Some u) body env st).
Proof.
  intros getTime u body env st. split.
  - intros code b st' H. apply POST_bookings_Json in H.
    destruct H as (u' & data & [= <-] & _ & P & _ & C & _).
    apply insertBookingSchema_Data in P.
    destruct P as (_ & F & _). simpl in F. injection F as F.
    pose proof (createBooking_stored _ _ _ _ _ C) as (_ & G & _).
    split; [|exact G].
    unfold createBooking in C. injection C as <- _. simpl. now symmetry.
  - intros body' H. unfold POST_bookings.
    rewrite (insertBookingSchema_ext
               (("facultyId", JStr (User.id u)) :: body')
               (("facultyId", JStr (User.id u)) :: body)); [reflexivity|].
    intros k. rewrite !field_cons.
    destruct (String.eqb_spec "facultyId" k); [reflexivity|].
    apply H. congruence.
Qed.

(** ** What a listing shows of a user *)

Lemma get_public (m1 m2 : JsMap.t User.t) (k : string) :
  Forall2 (fun e1 e2 => fst e1 = fst e2 /\ samePublicData (snd e1) (snd e2))
          m1 m2 ->
  match JsMap.get m1 k, JsMap.get m2 k with
  | Some u1, Some u2 => samePublicData u1 u2
  | None, None => True
  | _, _ => False
  end.
Proof.
  induction 1 as [|[k1 u1] [k2 u2] m1 m2 [Hk Hu] _ IH]; simpl; [exact I|].
  simpl in Hk, Hu. subst k2. destruct (String.eqb k1 k); [exact Hu | exact IH].
Qed.

Lemma withDetails_public st1 st2 b :
  samePublicStore st1 st2 -> withDetails st1 b = withDetails st2 b.
Proof.
  intros (Hr & _ & Hu). unfold withDetails. rewrite Hr.
  destruct (JsMap.get (rooms st2) (Booking.roomId b)) as [room|];
    [|reflexivity].
  pose proof (get_public _ _ (Booking.facultyId b) Hu) as G.
  destruct (JsMap.get (users st1) (Booking.facultyId b)) as [u1|],
           (JsMap.get (users st2) (Booking.facultyId b)) as [u2|];
    try contradiction; [|reflexivity].
  destruct G as (-> & -> & ->). reflexivity.
Qed.

Lemma joinAll_public st1 st2 l :
  samePublicStore st1 st2 -> joinAll st1 l = joinAll st2 l.
Proof.
  intros H. induction l as [|b l IH]; simpl; [reflexivity|].
  now rewrite (withDetails_public st1 st2 b H), IH.
Qed.

(** C9.  Every element of a listing, and every booking read by its
    identifier, carries as its faculty exactly the identifier, the name and
    the e-mail address of the user stored under the booking's [facultyId];
    and neither read depends on any other field of a user: two stores that
    differ only in passwords (or user names, roles, creation times) give
    the same listings and the same bookings. *)
Theorem reads_show_public_user_data :
  forall getTime st,
    (forall filters d,
        In d (getBookings getTime st filters) ->
        exists user,
          getUser st (Booking.facultyId (BookingWithDetails.booking d)) = Some user
          /\ BookingWithDetails.faculty d
             = Faculty.mk (User.id user) (User.name user) (User.email user))
    /\ (forall id d,
           getBooking st id = Some d ->
           exists user,
             getUser st (Booking.facultyId (BookingWithDetails.booking d)) = Some user
             /\ BookingWithDetails.faculty d
                = Faculty.mk (User.id user) (User.name user) (User.email user))
    /\ (forall st2,
           samePublicStore st st2 ->
           (forall filters,
               getBookings getTime st filters = getBookings getTime st2 filters)
           /\ (forall id, getBooking st id = getBooking st2 id)).
Proof.
  intros getTime st. split; [|split].
  - intros filters d H. apply In_getBookings in H.
    destruct H as (b & _ & Hd).
    rewrite (withDetails_booking _ _ _ Hd). now apply withDetails_faculty.
  - intros id d. unfold getBooking.
    destruct (JsMap.get (bookings st) id) as [b|]; [|discriminate].
    intros Hd. rewrite (withDetails_booking _ _ _ Hd).
    now apply withDetails_faculty.
  - intros st2 H. split.
    + intros filters. unfold getBookings.
      rewrite (joinAll_public st st2 _ H).
      destruct H as (_ & -> & _). reflexivity.
    + intros id. unfold getBooking.
      pose proof H as (_ & Hb & _). rewrite Hb.
      destruct (JsMap.get (bookings st2) id) as [b|]; [|reflexivity].
      now apply withDetails_public.
Qed.

(** ** Bookings that refer to a missing room or user *)

(** C10.  A booking whose [roomId] names no stored room, or whose
    [facultyId] names no stored user, is created all the same: it is
    returned and stored under the fresh identifier.  No listing contains
    it, whatever the filters, and reading it by its identifier gives
    [undefined]. *)
Theorem createBooking_dangling :
  forall getTime env st insertBooking,
    getRoom st (InsertBooking.roomId insertBooking) = None
    \/ getUser st (InsertBooking.facultyId insertBooking) = None ->
    let (booking, st') := createBooking env st insertBooking in
    Booking.id booking = randomUUID env
    /\ JsMap.get (bookings st') (Booking.id booking) = Some booking
    /\ (forall filters d,
           In d (getBookings getTime st' filters) ->
           BookingWithDetails.booking d <> booking)
    /\ getBooking st' (Booking.id booking) = None.
Proof.
  intros getTime env st ib H.
  destruct (createBooking env st ib) as [b st'] eqn:C.
  pose proof (createBooking_stored _ _ _ _ _ C) as (Hid & Hget & Hu & Hr & _).
  assert (W : withDetails st' b = None).
  { unfold withDetails. rewrite Hu, Hr.
    unfold createBooking in C. injection C as <- _. simpl.
    unfold getRoom, getUser in H. destruct H as [-> | ->]; [reflexivity|].
    now destruct (JsMap.get (rooms st) (InsertBooking.roomId ib)). }
  repeat split; auto.
  - intros filters d Hd E. apply In_getBookings in Hd.
    destruct Hd as (b' & _ & Hd).
    pose proof (withDetails_booking _ _ _ Hd). congruence.
  - unfold getBooking. now rewrite Hget.
Qed.

(** ** Cancelling and updating a booking *)

Lemma merge_cancelUpdate b : merge b cancelUpdate = withStatus cancelled b.
Proof. reflexivity. Qed.

Lemma getBooking_stored st id d :
  getBooking st id = Some d ->
  JsMap.get (bookings st) id = Some (BookingWithDetails.booking d).
Proof.
  unfold getBooking. destruct (JsMap.get (bookings st) id) as [b|];
    [|discriminate].
  intros H. now rewrite (withDetails_booking _ _ _ H).
Qed.

(** C7, as the code has it.  For a booking that [getBooking] resolves
    (stored, with its room and its faculty user both present) and a user
    allowed to edit it, [DELETE /api/bookings/:id] answers 204 and replaces
    the stored booking by the same booking with status "cancelled": every
    other field is as it was, every other booking is as it was, no key
    leaves the map or changes place, and users and rooms are untouched. *)
Theorem DELETE_booking_cancels :
  forall user id st d,
    getBooking st id = Some d ->
    mayEdit user d = true ->
    let b := BookingWithDetails.booking d in
    let (res, st') := DELETE_booking user id st in
    res = Send 204
    /\ JsMap.get (bookings st) id = Some b
    /\ JsMap.get (bookings st') id = Some (withStatus cancelled b)
    /\ (forall id', id' <> id ->
                    JsMap.get (bookings st') id' = JsMap.get (bookings st) id')
    /\ JsMap.keys (bookings st') = JsMap.keys (bookings st)
    /\ users st' = users st
    /\ rooms st' = rooms st.
Proof.
  intros user id st d G M b.
  pose proof (getBooking_stored _ _ _ G) as S. fold b in S.
  unfold DELETE_booking. destruct user as [u|]; [|discriminate].
  rewrite G, M. simpl. unfold updateBooking. rewrite S.
  rewrite merge_cancelUpdate. simpl. repeat split; auto.
  - apply get_set_same.
  - intros id' N. now apply get_set_other.
  - eapply keys_set_present; eassumption.
Qed.

Lemma withStatus_same b : withStatus (Booking.status b) b = b.
Proof. now destruct b. Qed.

(** C4.  A cancelled booking stays cancelled.  An update request for it is
    never carried out: whoever sends it and whatever status the payload
    asks for, the request is answered 401, 404, 403 or 500, the store is
    left as it is and the booking is still stored as cancelled.  A cancel
    request, the only other request that writes a stored booking, leaves
    it cancelled as well. *)
Theorem cancelled_stays_cancelled :
  forall user id body st b,
    JsMap.get (bookings st) id = Some b ->
    Booking.status b = cancelled ->
    (let (res, st') := PUT_booking user id body st in
     accepted res = false
     /\ (exists code message,
            res = Message code message /\ In code [401; 404; 403; 500])
     /\ st' = st
     /\ JsMap.get (bookings st') id = Some b)
    /\ JsMap.get (bookings (snd (DELETE_booking user id st))) id = Some b.
Proof.
  intros user id body st b G C. split.
  - unfold PUT_booking. destruct user as [u|].
    + destruct (getBooking st id) as [d|].
      * destruct (mayEdit (Some u) d); cbn [negb];
          (split; [reflexivity|]); (split; [|split; [reflexivity | exact G]]);
          do 2 eexists; (split; [reflexivity|]); simpl; auto.
      * split; [reflexivity|]. split; [|split; [reflexivity | exact G]].
        do 2 eexists. split; [reflexivity|]. simpl; auto.
    + split; [reflexivity|]. split; [|split; [reflexivity | exact G]].
      do 2 eexists. split; [reflexivity|]. simpl; auto.
  - unfold DELETE_booking. destruct user as [u|]; [|exact G].
    destruct (getBooking st id) as [d|] eqn:R; [|exact G].
    destruct (mayEdit (Some u) d); cbn [negb]; [|exact G].
    unfold updateBooking. rewrite G. cbn [snd bookings].
    rewrite get_set_same, merge_cancelUpdate, <- C.
    now rewrite withStatus_same.
Qed.

(** ** Creating a room *)

(** [createRoom] has no failing path: it stores the new room, whatever
    rooms the store holds. *)
Lemma createRoom_stored env st insertRoom :
  let (room, st') := createRoom env st insertRoom in
  room = Room.mk (randomUUID env) (InsertRoom.name insertRoom)
                 (InsertRoom.capacity insertRoom) (now env)
  /\ JsMap.get (rooms st') (randomUUID env) = Some room.
Proof. simpl. split; [reflexivity | apply get_set_same]. Qed.

(** C5 (the code departs from it).  With a room named "Room A101" in the
    store, an administrator's request to create a room of that name is
    answered 201, and the store then holds two rooms of that name. *)
Theorem POST_rooms_duplicate_name :
  roomsNamed "Room A101" Campus.store = 1%nat
  /\ exists st',
      POST_rooms (Some Campus.root) Scenario.sameName (Campus.env "room-6" 20)
                 Campus.store
      = (Json 201 (Room.mk "room-6" "Room A101" 30 20), st')
      /\ getRoom st' "room-1" = Some (Room.mk "room-1" "Room A101" 30 0)
      /\ getRoom st' "room-6" = Some (Room.mk "room-6" "Room A101" 30 20)
      /\ roomsNamed "Room A101" st' = 2%nat.
Proof.
  split; [reflexivity|].
  eexists. split; [vm_compute; reflexivity|].
  repeat split; reflexivity.
Qed.

(** ** Sequences of requests and the no-overlap rule *)

Lemma noOverlap_twoCreates :
  exists st,
    runAccepted Js.utcDateTime Campus.store Scenario.twoCreates = Some st
    /\ bookings st = [("b-1", Campus.aliceBooking); ("b-2", Scenario.bobBooking)]
    /\ noOverlap st.
Proof.
  eexists. split; [vm_compute; reflexivity|]. split; [reflexivity|].
  intros ida idb a b N. cbn [bookings JsMap.get].
  destruct (String.eqb_spec "b-1" ida) as [<-|];
    [|destruct (String.eqb_spec "b-2" ida) as [<-|]; [|discriminate]];
    (destruct (String.eqb_spec "b-1" idb) as [<-|];
     [|destruct (String.eqb_spec "b-2" idb) as [<-|]; [|discriminate]]);
    try congruence; intros [= <-] [= <-]; reflexivity.
Qed.

(** C1 (the code departs from it).  Alice asks for 09:00 to 10:00 and Bob
    for 09:30 to 10:30 on the same day, both for a room identifier that no
    room carries.  The conflict check reads the bookings through the join
    with the rooms, which drops Alice's booking, so both requests are
    accepted: the store ends with two pending bookings of the same room and
    date whose times overlap. *)
Theorem unknown_room_breaks_noOverlap :
  exists st,
    runAccepted Js.utcDateTime Campus.store Scenario.ghostCreates = Some st
    /\ JsMap.get (bookings st) "b-1"
       = Some (Booking.mk "b-1" "no-such-room" "u-alice" "CS101" "2024-01-10"
                          "09:00" "10:00" None None pending 10)
    /\ JsMap.get (bookings st) "b-2"
       = Some (Booking.mk "b-2" "no-such-room" "u-bob" "MA201" "2024-01-10"
                          "09:30" "10:30" None None pending 11)
    /\ ~ noOverlap st.
Proof.
  eexists. split; [vm_compute; reflexivity|].
  split; [reflexivity|]. split; [reflexivity|].
  intros H.
  specialize (H "b-1" "b-2" _ _ ltac:(discriminate) eq_refl eq_refl).
  vm_compute in H. discriminate.
Qed.

(** An update cannot break the rule, since none is carried out: after the
    two adjacent bookings of room 1, Bob's request to move his start to
    09:30 is not accepted. *)
Lemma update_not_accepted :
  runAccepted Js.utcDateTime Campus.store
              (Scenario.twoCreates ++ [Scenario.moveStart])%list = None.
Proof. vm_compute. reflexivity. Qed.

(** The scenario of the specification: a request that overlaps Alice's
    booking is answered 409 and leaves the store as it was. *)
Lemma overlapping_request_refused :
  POST_bookings Js.utcDateTime (Some Campus.bob)
    (Campus.payload "room-1" "MA201" "09:30" "10:30") (Campus.env "b-2" 11)
    Campus.booked
  = (Message 409 "Room is already booked for the selected time slot",
     Campus.booked).
Proof. vm_compute. reflexivity. Qed.

(** *** Creations keep the rule *)








(** ** Instances *)

Lemma timesOverlap_half_open_witness :
  (timesOverlap "09:00" "10:00" "09:30" "10:30" = true
   <-> minutesSinceMidnight "09:00" < minutesSinceMidnight "10:30"
       /\ minutesSinceMidnight "10:00" > minutesSinceMidnight "09:30")
  /\ ("10:00" = "09:30" -> timesOverlap "09:00" "10:00" "09:30" "10:30" = false)
  /\ ("09:00" = "10:30" -> timesOverlap "09:00" "10:00" "09:30" "10:30" = false).
Proof.
  apply (timesOverlap_half_open "09:00" "10:00" "09:30" "10:30");
    reflexivity.
Defined.


Lemma POST_bookings_status_witness :
  POST_bookings Js.utcDateTime (Some Campus.alice) Campus.cs101
    (Campus.env "b-1" 10) Campus.store
  = (Json 201 Campus.aliceBooking, Campus.booked)
  /\ Booking.status Campus.aliceBooking = pending
  /\ JsMap.get (bookings Campus.booked) "b-1" = Some Campus.aliceBooking.
Proof.
  split; [vm_compute; reflexivity|].
  apply (POST_bookings_status Js.utcDateTime (Some Campus.alice) Campus.cs101
           (Campus.env "b-1" 10) Campus.store 201 Campus.aliceBooking
           Campus.booked).
  vm_compute. reflexivity.
Defined.

(** C3 fails as stated: a payload that names the status "confirmed" is
    accepted, and the booking is created and stored as confirmed. *)
Lemma POST_bookings_status_counterexample :
  exists st',
    POST_bookings Js.utcDateTime (Some Campus.alice) Instances.confirmedPayload
      (Campus.env "b-1" 10) Campus.store
    = (Json 201 (withStatus confirmed Campus.aliceBooking), st')
    /\ JsMap.get (bookings st') "b-1"
       = Some (withStatus confirmed Campus.aliceBooking)
    /\ Booking.status (withStatus confirmed Campus.aliceBooking) <> pending.
Proof.
  eexists. split; [vm_compute; reflexivity|].
  split; [reflexivity | discriminate].
Qed.

Lemma POST_bookings_facultyId_witness :
  POST_bookings Js.utcDateTime (Some Campus.alice) Instances.forBob
    (Campus.env "b-1" 10) Campus.store
  = (Json 201 Campus.aliceBooking, Campus.booked)
  /\ Booking.facultyId Campus.aliceBooking = User.id Campus.alice
  /\ POST_bookings Js.utcDateTime (Some Campus.alice) Instances.forBob
       (Campus.env "b-1" 10) Campus.store
     = POST_bookings Js.utcDateTime (Some Campus.alice) Campus.cs101
         (Campus.env "b-1" 10) Campus.store.
Proof.
  pose proof (POST_bookings_facultyId Js.utcDateTime Campus.alice
                Instances.forBob (Campus.env "b-1" 10) Campus.store)
    as [Created _].
  pose proof (POST_bookings_facultyId Js.utcDateTime Campus.alice
                Campus.cs101 (Campus.env "b-1" 10) Campus.store)
    as [_ Ignored].
  assert (E : POST_bookings Js.utcDateTime (Some Campus.alice) Instances.forBob
                (Campus.env "b-1" 10) Campus.store
              = (Json 201 Campus.aliceBooking, Campus.booked))
    by (vm_compute; reflexivity).
  split; [exact E|]. split.
  - exact (proj1 (Created 201 Campus.aliceBooking Campus.booked E)).
  - apply Ignored. intros k N. unfold Instances.forBob.
    rewrite field_cons. destruct (String.eqb_spec "facultyId" k);
      [congruence | reflexivity].
Defined.

Lemma reads_show_public_user_data_witness :
  In Instances.aliceDetails (getBookings Js.utcDateTime Campus.booked None)
  /\ BookingWithDetails.faculty Instances.aliceDetails
     = Faculty.mk "u-alice" "Alice" "alice@campus.example"
  /\ samePublicStore Campus.booked Instances.rehashed
  /\ getBookings Js.utcDateTime Campus.booked None
     = getBookings Js.utcDateTime Instances.rehashed None
  /\ getBooking Campus.booked "b-1" = getBooking Instances.rehashed "b-1".
Proof.
  pose proof (reads_show_public_user_data Js.utcDateTime Campus.booked)
    as (Listed & _ & Public).
  assert (I : In Instances.aliceDetails
                 (getBookings Js.utcDateTime Campus.booked None))
    by (vm_compute; left; reflexivity).
  assert (S : samePublicStore Campus.booked Instances.rehashed).
  { split; [reflexivity|]. split; [reflexivity|].
    vm_compute. repeat constructor. }
  split; [exact I|]. split.
  - destruct (Listed None Instances.aliceDetails I) as (user & G & F).
    vm_compute in G. injection G as <-. exact F.
  - split; [exact S|]. split.
    + exact (proj1 (Public Instances.rehashed S) None).
    + exact (proj2 (Public Instances.rehashed S) "b-1").
Defined.

Lemma createBooking_dangling_witness :
  (getRoom Campus.store "no-such-room" = None
   \/ getUser Campus.store "u-alice" = None)
  /\ let (booking, st') :=
       createBooking (Campus.env "b-1" 10) Campus.store Instances.ghost in
     Booking.id booking = "b-1"
     /\ JsMap.get (bookings st') (Booking.id booking) = Some booking
     /\ (forall filters d,
            In d (getBookings Js.utcDateTime st' filters) ->
            BookingWithDetails.booking d <> booking)
     /\ getBooking st' (Booking.id booking) = None.
Proof.
  split; [left; reflexivity|].
  apply (createBooking_dangling Js.utcDateTime (Campus.env "b-1" 10)
           Campus.store Instances.ghost).
  left. reflexivity.
Defined.

Lemma DELETE_booking_cancels_witness :
  getBooking Campus.booked "b-1" = Some Instances.aliceDetails
  /\ mayEdit (Some Campus.alice) Instances.aliceDetails = true
  /\ let (res, st') := DELETE_booking (Some Campus.alice) "b-1" Campus.booked in
     res = Send 204
     /\ JsMap.get (bookings Campus.booked) "b-1" = Some Campus.aliceBooking
     /\ JsMap.get (bookings st') "b-1"
        = Some (withStatus cancelled Campus.aliceBooking)
     /\ (forall id', id' <> "b-1" ->
            JsMap.get (bookings st') id' = JsMap.get (bookings Campus.booked) id')
     /\ JsMap.keys (bookings st') = JsMap.keys (bookings Campus.booked)
     /\ users st' = users Campus.booked
     /\ rooms st' = rooms Campus.booked.
Proof.
  split; [reflexivity|]. split; [reflexivity|].
  apply (DELETE_booking_cancels (Some Campus.alice) "b-1" Campus.booked
           Instances.aliceDetails); reflexivity.
Defined.

(** C7 fails as stated: once room 1 is deleted, Alice's booking is still
    stored and still pending, yet the administrator's request to delete it
    is answered 404 and changes nothing. *)
Lemma DELETE_booking_counterexample :
  JsMap.get (bookings Scenario.roomGone) "b-1" = Some Campus.aliceBooking
  /\ Booking.status Campus.aliceBooking = pending
  /\ hasRole (Some Campus.root) admin = true
  /\ DELETE_booking (Some Campus.root) "b-1" Scenario.roomGone
     = (Message 404 "Booking not found", Scenario.roomGone).
Proof. repeat split; vm_compute; reflexivity. Qed.

Lemma cancelled_stays_cancelled_witness :
  (let (res, st') :=
     PUT_booking (Some Campus.alice) "b-1" Scenario.backToPending
                 Scenario.aliceCancelled in
   accepted res = false
   /\ (exists code message,
          res = Message code message /\ In code [401; 404; 403; 500])
   /\ st' = Scenario.aliceCancelled
   /\ JsMap.get (bookings st') "b-1"
      = Some (withStatus cancelled Campus.aliceBooking))
  /\ JsMap.get
       (bookings (snd (DELETE_booking (Some Campus.alice) "b-1"
                         Scenario.aliceCancelled)))
       "b-1"
     = Some (withStatus cancelled Campus.aliceBooking).
Proof.
  apply (cancelled_stays_cancelled (Some Campus.alice) "b-1"
           Scenario.backToPending Scenario.aliceCancelled
           (withStatus cancelled Campus.aliceBooking)); reflexivity.
Defined.


(** * Further properties of the store, the routes and the client *)

(** ** More on maps *)

Section MoreMapFacts.
Context {V : Type}.
Implicit Types (m : JsMap.t V) (k : string) (v : V).

Lemma get_None_keys m k : JsMap.get m k = None <-> ~ In k (JsMap.keys m).
Proof.
  induction m as [|[k0 w] m IH]; simpl; [tauto|].
  destruct (String.eqb_spec k0 k) as [E|N].
  - split; [discriminate | intros H; exfalso; auto].
  - rewrite IH. split; [intros H [E|I]; auto | intros H I; auto].
Qed.

Lemma set_absent m k v :
  JsMap.get m k = None -> JsMap.set m k v = (m ++ [(k, v)])%list.
Proof.
  induction m as [|[k0 w] m IH]; simpl; [reflexivity|].
  destruct (String.eqb k0 k); [discriminate|].
  intros H. now rewrite IH.
Qed.

Lemma set_same m k v : JsMap.get m k = Some v -> JsMap.set m k v = m.
Proof.
  induction m as [|[k0 w] m IH]; simpl; [discriminate|].
  destruct (String.eqb k0 k); [now intros [= ->]|].
  intros H. now rewrite IH.
Qed.

Lemma get_delete_other m k k' :
  k' <> k -> JsMap.get (snd (JsMap.delete m k)) k' = JsMap.get m k'.
Proof.
  intros N. induction m as [|[k0 w] m IH]; simpl; [reflexivity|].
  destruct (String.eqb_spec k0 k) as [->|N0]; simpl.
  - destruct (String.eqb_spec k k'); [congruence | exact IH].
  - destruct (String.eqb k0 k'); [reflexivity | exact IH].
Qed.

Lemma keys_delete_incl m k x :
  In x (JsMap.keys (snd (JsMap.delete m k))) -> In x (JsMap.keys m).
Proof.
  unfold JsMap.keys, JsMap.delete. simpl. rewrite !in_map_iff.
  intros (e & E & I). apply filter_In in I. exists e. tauto.
Qed.

Section Keyed.
Variable id : V -> string.

Lemma keyedBy_set m k v :
  id v = k -> keyedBy id m -> keyedBy id (JsMap.set m k v).
Proof.
  intros E [ND F]. destruct (JsMap.get m k) as [v0|] eqn:G.
  - split.
    + now rewrite (keys_set_present m k v v0 G).
    + clear ND G. induction F as [|[k0 w] m F1 F2 IH]; simpl.
      * constructor; [exact E | constructor].
      * destruct (String.eqb_spec k0 k) as [K|N]; constructor; auto.
        simpl. congruence.
  - rewrite (set_absent m k v G). split.
    + unfold JsMap.keys. rewrite map_app. simpl.
      apply NoDup_app; [exact ND | repeat constructor; auto | ].
      intros x I [K|[]]. subst x. now apply get_None_keys in G.
    + apply Forall_app. split; [exact F | repeat constructor; exact E].
Qed.

Lemma keyedBy_delete m k : keyedBy id m -> keyedBy id (snd (JsMap.delete m k)).
Proof.
  intros [ND F]. unfold JsMap.delete. simpl. split.
  - clear F. induction m as [|[k0 w] m IH]; simpl; [constructor|].
    inversion ND as [|? ? N1 N2]; subst.
    destruct (String.eqb k0 k); simpl; [now apply IH|].
    constructor; [|now apply IH].
    intros I. apply N1. now apply (keys_delete_incl m k).
  - clear ND. induction F as [|[k0 w] m F1 F2 IH]; simpl; [constructor|].
    destruct (String.eqb k0 k); simpl; [exact IH | now constructor].
Qed.

Lemma keyedBy_get m k v : keyedBy id m -> JsMap.get m k = Some v -> id v = k.
Proof.
  intros [_ F]. induction F as [|[k0 w] m F1 F2 IH]; simpl; [discriminate|].
  destruct (String.eqb_spec k0 k) as [->|]; [now intros [= <-] | exact IH].
Qed.
End Keyed.
End MoreMapFacts.

(** ** Listings *)

Lemma filter_filter {A : Type} (p q : A -> bool) (l : list A) :
  filter q (filter p l) = filter (fun x => (p x && q x)%bool) l.
Proof.
  induction l as [|x l IH]; simpl; [reflexivity|].
  destruct (p x); simpl; [|exact IH].
  destruct (q x); simpl; now rewrite IH.
Qed.

Lemma filter_true {A : Type} (l : list A) : filter (fun _ => true) l = l.
Proof. induction l as [|x l IH]; simpl; [reflexivity | now rewrite IH]. Qed.

Lemma filterIf_passes o keep l : filterIf o keep l = filter (passes o keep) l.
Proof.
  unfold filterIf, passes. destruct o as [v|]; [|now rewrite filter_true].
  destruct (Js.truthy (Some v)); [reflexivity | now rewrite filter_true].
Qed.

(** The five filters are applied together: the bookings kept are those
    that pass every filter whose value is truthy, in the stored order. *)
Lemma applyFilters_filter filters l :
  applyFilters filters l = filter (matchesFilters filters) l.
Proof.
  destruct filters as [f|]; simpl; [|now rewrite filter_true].
  rewrite !filterIf_passes, !filter_filter.
  apply filter_ext. intros b. unfold matchesFilters.
  now rewrite !andb_assoc.
Qed.

Lemma In_getBookings_iff getTime st filters d :
  In d (getBookings getTime st filters)
  <-> exists b,
      In b (JsMap.values (bookings st))
      /\ matchesFilters filters b = true
      /\ withDetails st b = Some d.
Proof.
  unfold getBookings.
  rewrite (In_sort (byStart getTime)), In_joinAll, applyFilters_filter.
  split; intros (b & H & W); exists b.
  - apply filter_In in H. tauto.
  - split; [apply filter_In|]; tauto.
Qed.

(** X1.  A listing holds exactly the joins of the stored bookings that
    pass every truthy filter and whose room and faculty user are both in
    the store: nothing else is listed and none of these is left out. *)
Theorem getBookings_exact :
  forall getTime st filters d,
    In d (getBookings getTime st filters)
    <-> exists b,
        In b (JsMap.values (bookings st))
        /\ matchesFilters filters b = true
        /\ withDetails st b = Some d.
Proof.
  intros getTime st filters d. unfold getBookings.
  rewrite (In_sort (byStart getTime)), In_joinAll, applyFilters_filter.
  split; intros (b & H & W); exists b.
  - apply filter_In in H. tauto.
  - split; [apply filter_In|]; tauto.
Qed.

(** ** Sorted results *)

Section SortedFacts.
Context {A : Type} (compare : A -> A -> Js.num) (key : A -> Z).

Lemma insert_sorted (x : A) (l : list A) :
  (forall y, In y l -> compare x y = Some (key x - key y)) ->
  StronglySorted (fun a b => key a <= key b) l ->
  StronglySorted (fun a b => key a <= key b) (Js.insert compare x l).
Proof.
  intros C S. induction S as [|y l S IH F]; simpl.
  - repeat constructor.
  - rewrite (C y (or_introl eq_refl)). simpl.
    destruct (Z.gtb_spec (key x - key y) 0) as [G|G].
    + constructor.
      * apply IH. intros z I. apply C. now right.
      * apply Forall_forall. intros z I.
        apply (Permutation_in _ (insert_perm compare x l)) in I.
        destruct I as [<-|I]; [lia|].
        rewrite Forall_forall in F. now apply F.
    + constructor; [now constructor|].
      constructor; [lia|].
      rewrite Forall_forall in F |- *. intros z I. specialize (F z I). lia.
Qed.

(** A comparison that is the difference of two numeric keys sorts by that
    key. *)
Lemma sort_sorted (l : list A) :
  (forall x y, In x l -> In y l -> compare x y = Some (key x - key y)) ->
  StronglySorted (fun a b => key a <= key b) (Js.sort compare l).
Proof.
  induction l as [|x l IH]; intros C; simpl; [constructor|].
  apply insert_sorted.
  - intros y I. apply C; [now left | right].
    now apply (proj1 (In_sort compare y l)).
  - apply IH. intros a b Ia Ib. apply C; now right.
Qed.
End SortedFacts.

(** X2.  When the date and start time of every stored booking are read
    by the date parser as an instant, every listing comes in ascending
    order of these instants. *)
Theorem getBookings_ascending :
  forall getTime st filters,
    (forall b, In b (JsMap.values (bookings st)) ->
               getTime (Booking.date b ++ " " ++ Booking.startTime b) <> None) ->
    StronglySorted
      (fun a b => exists ta tb,
           startOf getTime a = Some ta /\ startOf getTime b = Some tb
           /\ ta <= tb)
      (getBookings getTime st filters).
Proof.
  intros getTime st filters Valid.
  set (key := fun d => match startOf getTime d with Some t => t | None => 0 end).
  assert (K : forall d, In d (getBookings getTime st filters) ->
                        startOf getTime d = Some (key d)).
  { intros d I. apply In_getBookings_iff in I. destruct I as (b & Ib & _ & W).
    unfold key, startOf. rewrite (withDetails_booking _ _ _ W).
    specialize (Valid b Ib).
    now destruct (getTime (Booking.date b ++ " " ++ Booking.startTime b)). }
  assert (S : StronglySorted (fun a b => key a <= key b)
                (getBookings getTime st filters)).
  { unfold getBookings. apply sort_sorted. intros x y Ix Iy.
    unfold byStart.
    rewrite (K x), (K y); [reflexivity| |];
      unfold getBookings; now apply (proj2 (In_sort _ _ _)). }
  revert K S. generalize (getBookings getTime st filters) as l.
  induction l as [|d l IH]; intros K S; [constructor|].
  inversion S as [|? ? S1 F]; subst. constructor.
  - apply IH; [intros x I; apply K; now right | exact S1].
  - rewrite Forall_forall in F |- *. intros y I.
    exists (key d), (key y). repeat split; auto using in_eq, in_cons.
Qed.

(** ** The conflict test in the order the code compares in *)

(** X3.  For any four strings that form two proper intervals in the order
    in which the code compares them, the three clauses hold exactly when
    each interval starts before the other ends, and the test does not
    depend on which of the two bookings is the new one. *)
Theorem timesOverlap_string_order :
  forall newStart newEnd existingStart existingEnd : string,
    Js.lt newStart newEnd = true ->
    Js.lt existingStart existingEnd = true ->
    (timesOverlap newStart newEnd existingStart existingEnd = true
     <-> Js.lt newStart existingEnd = true /\ Js.lt existingStart newEnd = true)
    /\ timesOverlap newStart newEnd existingStart existingEnd
       = timesOverlap existingStart existingEnd newStart newEnd.
Proof.
  intros ns ne es ee Hn He.
  rewrite (timesOverlap_inequalities ns ne es ee Hn He),
          (timesOverlap_inequalities es ee ns ne He Hn).
  unfold Js.gt. fold (Js.lt es ne). fold (Js.lt ns ee). split.
  - apply andb_true_iff.
  - apply andb_comm.
Qed.

(** ** Edge cases of the refinement *)

(** X4.  On HH:MM times the refinement of the insert schema accepts
    exactly the pairs that the conflict test, which compares the texts,
    sees as a start before an end. *)
Theorem endAfterStart_string_order :
  forall s e,
    isHHMM s = true -> isHHMM e = true ->
    endAfterStart (Some s) (Some e) = Js.lt s e.
Proof.
  intros s e Hs He.
  rewrite endAfterStart_HHMM, lt_HHMM by assumption. apply Z.gtb_ltb.
Qed.

Lemma split_no_separator sep s :
  (forall c, In c (list_ascii_of_string s) -> c <> sep) ->
  Js.split sep s = [s].
Proof.
  induction s as [|c s IH]; simpl; intros H; [reflexivity|].
  destruct (Ascii.eqb_spec c sep) as [E|N]; [now destruct (H c (or_introl eq_refl))|].
  rewrite IH; [reflexivity|]. intros c' I. apply H. now right.
Qed.

(** A time without a colon has no minutes: the second element of the
    split is missing and the sum is [NaN]. *)
Lemma minutesOf_no_colon s :
  (forall c, In c (list_ascii_of_string s) -> c <> ":"%char) ->
  minutesOf s = Js.NaN.
Proof.
  intros H. unfold minutesOf. rewrite (split_no_separator _ _ H).
  unfold Js.add, Js.at_num. cbn [map nth_error].
  now destruct (Js.mul (Js.Number s) (Some 60)).
Qed.

(** X5.  A payload whose start and end times are both non-empty and one
    of which holds no colon (such as "0900") is rejected by the insert
    schema, whatever the other fields are. *)
Theorem insertBookingSchema_no_colon :
  forall body s e,
    field "startTime" body = Some (JStr s) ->
    field "endTime" body = Some (JStr e) ->
    s <> EmptyString -> e <> EmptyString ->
    (forall c, In c (list_ascii_of_string s) -> c <> ":"%char)
    \/ (forall c, In c (list_ascii_of_string e) -> c <> ":"%char) ->
    insertBookingSchema body = ZodError.
Proof.
  intros body s e Hs He Ns Ne H.
  apply (insertBookingSchema_times body s e Hs He).
  unfold endAfterStart, Js.truthy.
  destruct (String.eqb_spec s EmptyString); [contradiction|].
  destruct (String.eqb_spec e EmptyString); [contradiction|]. simpl.
  destruct H as [H|H]; rewrite (minutesOf_no_colon _ H).
  - now destruct (minutesOf e).
  - reflexivity.
Qed.

(** X6.  The refinement does not look at the times when one of them is
    the empty text: a payload that gives the six required texts, no
    optional field, and an empty start or end time passes the insert
    schema as it is. *)
Theorem insertBookingSchema_empty_time :
  forall body roomId facultyId courseName date s e,
    field "roomId" body = Some (JStr roomId) ->
    field "facultyId" body = Some (JStr facultyId) ->
    field "courseName" body = Some (JStr courseName) ->
    field "date" body = Some (JStr date) ->
    field "startTime" body = Some (JStr s) ->
    field "endTime" body = Some (JStr e) ->
    field "expectedAttendance" body = None ->
    field "specialRequirements" body = None ->
    field "status" body = None ->
    s = EmptyString \/ e = EmptyString ->
    insertBookingSchema body
    = Data (InsertBooking.mk roomId facultyId courseName date s e
              None None None).
Proof.
  intros body r f c d s e Hr Hf Hc Hd Hs He Ha Hq Ht H.
  unfold insertBookingSchema. rewrite Hr, Hf, Hc, Hd, Hs, He, Ha, Hq, Ht.
  simpl. unfold refine. simpl.
  destruct H as [-> | ->]; [reflexivity|].
  unfold endAfterStart. simpl. now rewrite andb_false_r.
Qed.

(** ** Bookings in the store *)

(** X7.  A booking created for a stored room and a stored user is read
    back by its identifier with exactly the fields of the input, the
    default status "pending" and [null] for the optional fields that were
    not given, joined with that room and with the identifier, name and
    e-mail address of that user. *)
Theorem createBooking_read_back :
  forall env st insertBooking room user,
    getRoom st (InsertBooking.roomId insertBooking) = Some room ->
    getUser st (InsertBooking.facultyId insertBooking) = Some user ->
    let (booking, st') := createBooking env st insertBooking in
    getBooking st' (randomUUID env)
    = Some (BookingWithDetails.mk booking room
              (Faculty.mk (User.id user) (User.name user) (User.email user)))
    /\ booking
       = Booking.mk (randomUUID env)
           (InsertBooking.roomId insertBooking)
           (InsertBooking.facultyId insertBooking)
           (InsertBooking.courseName insertBooking)
           (InsertBooking.date insertBooking)
           (InsertBooking.startTime insertBooking)
           (InsertBooking.endTime insertBooking)
           (orNull (InsertBooking.expectedAttendance insertBooking))
           (orNull (InsertBooking.specialRequirements insertBooking))
           (spread pending (InsertBooking.status insertBooking))
           (now env).
Proof.
  intros env st ib room user Hr Hu. unfold createBooking, getBooking.
  cbn [bookings]. rewrite get_set_same. unfold withDetails.
  cbn [rooms users Booking.roomId Booking.facultyId].
  unfold getRoom in Hr. unfold getUser in Hu. rewrite Hr, Hu.
  split; reflexivity.
Qed.

(** X8.  [createBooking] touches one key of the bookings and nothing
    else: every other booking is read as before, users and rooms are as
    they were, and when the identifier is new the booking goes last in the
    stored order. *)
Theorem createBooking_frame :
  forall env st insertBooking,
    let (booking, st') := createBooking env st insertBooking in
    (forall id, id <> randomUUID env ->
                JsMap.get (bookings st') id = JsMap.get (bookings st) id)
    /\ users st' = users st
    /\ rooms st' = rooms st
    /\ (JsMap.get (bookings st) (randomUUID env) = None ->
        bookings st' = (bookings st ++ [(randomUUID env, booking)])%list).
Proof.
  intros env st ib. unfold createBooking. cbn [bookings users rooms].
  repeat split.
  - intros id N. now apply get_set_other.
  - intros G. now apply set_absent.
Qed.

(** X9.  [updateBooking] on an identifier that is not stored returns
    [undefined] and leaves the store as it is; on a stored one it keeps the
    identifier and the creation time of the booking, keeps every key of the
    map in its place, and leaves every other booking, the users and the
    rooms untouched. *)
Theorem updateBooking_frame :
  forall st id bookingUpdate,
    let (res, st') := updateBooking st id bookingUpdate in
    match JsMap.get (bookings st) id with
    | None => res = None /\ st' = st
    | Some existing =>
        exists updated,
        res = Some updated
        /\ JsMap.get (bookings st') id = Some updated
        /\ Booking.id updated = Booking.id existing
        /\ Booking.createdAt updated = Booking.createdAt existing
        /\ JsMap.keys (bookings st') = JsMap.keys (bookings st)
        /\ (forall id', id' <> id ->
               JsMap.get (bookings st') id' = JsMap.get (bookings st) id')
        /\ users st' = users st /\ rooms st' = rooms st
    end.
Proof.
  intros st id u. unfold updateBooking.
  destruct (JsMap.get (bookings st) id) as [existing|] eqn:G.
  - exists (merge existing u). cbn [bookings users rooms]. repeat split.
    + apply get_set_same.
    + eapply keys_set_present; eassumption.
    + intros id' N. now apply get_set_other.
  - split; reflexivity.
Qed.

(** X10.  An update that supplies no field stores the booking as it was:
    the store does not change. *)
Theorem updateBooking_nothing :
  forall st id existing,
    JsMap.get (bookings st) id = Some existing ->
    updateBooking st id BookingUpdate.none = (Some existing, st).
Proof.
  intros st id existing G. unfold updateBooking. rewrite G.
  assert (M : merge existing BookingUpdate.none = existing)
    by now destruct existing.
  rewrite M, (set_same _ _ _ G). now destruct st.
Qed.

(** ** Rooms in the store *)

(** X11.  A created room is read back by its identifier with the name
    and the capacity of the input; every other room is read as before, and
    when the identifier is new the room goes last in [getRooms]. *)
Theorem createRoom_read_back :
  forall env st insertRoom,
    let (room, st') := createRoom env st insertRoom in
    getRoom st' (randomUUID env) = Some room
    /\ Room.name room = InsertRoom.name insertRoom
    /\ Room.capacity room = InsertRoom.capacity insertRoom
    /\ (forall id, id <> randomUUID env -> getRoom st' id = getRoom st id)
    /\ (getRoom st (randomUUID env) = None ->
        getRooms st' = (getRooms st ++ [room])%list)
    /\ users st' = users st /\ bookings st' = bookings st.
Proof.
  intros env st ir. unfold createRoom, getRoom, getRooms.
  cbn [rooms users bookings]. repeat split.
  - apply get_set_same.
  - intros id N. now apply get_set_other.
  - intros G. rewrite (set_absent _ _ _ G). unfold JsMap.values.
    now rewrite map_app.
Qed.

(** X12.  [updateRoom] on an identifier that is not stored returns
    [undefined] and leaves the store as it is; on a stored one it
    overwrites the name and the capacity that are supplied, keeps the
    others, the identifier and the creation time, and leaves every other
    room, the users and the bookings untouched. *)
Theorem updateRoom_effect :
  forall st id roomUpdate,
    let (res, st') := updateRoom st id roomUpdate in
    match getRoom st id with
    | None => res = None /\ st' = st
    | Some existing =>
        exists updated,
        res = Some updated
        /\ getRoom st' id = Some updated
        /\ Room.id updated = Room.id existing
        /\ Room.createdAt updated = Room.createdAt existing
        /\ Room.name updated
           = match RoomUpdate.name roomUpdate with
             | Some n => n
             | None => Room.name existing
             end
        /\ Room.capacity updated
           = match RoomUpdate.capacity roomUpdate with
             | Some c => c
             | None => Room.capacity existing
             end
        /\ (forall id', id' <> id -> getRoom st' id' = getRoom st id')
        /\ JsMap.keys (rooms st') = JsMap.keys (rooms st)
        /\ users st' = users st /\ bookings st' = bookings st
    end.
Proof.
  intros st id u. unfold updateRoom, getRoom.
  destruct (JsMap.get (rooms st) id) as [existing|] eqn:G.
  - eexists. cbn [rooms users bookings]. split; [reflexivity|].
    split; [apply get_set_same|]. repeat split.
    + intros id' N. now apply get_set_other.
    + eapply keys_set_present; eassumption.
  - split; reflexivity.
Qed.

Lemma has_get {V : Type} (m : JsMap.t V) k :
  JsMap.has m k = true <-> JsMap.get m k <> None.
Proof.
  unfold JsMap.has. destruct (JsMap.get m k); split;
    congruence || discriminate.
Qed.

(** X13.  [deleteRoom] answers [true] exactly when the room was stored;
    afterwards the room is gone and every other room is read as before.
    Users and bookings are not touched, so a booking of the deleted room
    stays in the map, but it can no longer be read: [getBooking] returns
    [undefined] for it and no listing contains it. *)
Theorem deleteRoom_effect :
  forall getTime st id,
    let (deleted, st') := deleteRoom st id in
    (deleted = true <-> getRoom st id <> None)
    /\ getRoom st' id = None
    /\ (forall id', id' <> id -> getRoom st' id' = getRoom st id')
    /\ users st' = users st
    /\ bookings st' = bookings st
    /\ (forall bid b,
           JsMap.get (bookings st') bid = Some b ->
           Booking.roomId b = id ->
           getBooking st' bid = None
           /\ forall filters d,
               In d (getBookings getTime st' filters) ->
               BookingWithDetails.booking d <> b).
Proof.
  intros getTime st id. unfold deleteRoom, getRoom.
  destruct (JsMap.delete (rooms st) id) as [existed rooms'] eqn:D.
  cbn [rooms users bookings].
  assert (E : existed = JsMap.has (rooms st) id) by now inversion D.
  assert (R : rooms' = snd (JsMap.delete (rooms st) id)) by now rewrite D.
  assert (Gone : JsMap.get rooms' id = None)
    by (rewrite R; apply get_delete_same).
  split; [rewrite E; apply has_get|]. split; [exact Gone|].
  split; [intros id' N; rewrite R; now apply get_delete_other|].
  split; [reflexivity|]. split; [reflexivity|].
  intros bid b G Rb.
  assert (W : withDetails
                {| users := users st; rooms := rooms'; bookings := bookings st |}
                b = None).
  { unfold withDetails. cbn [rooms users]. now rewrite Rb, Gone. }
  split.
  - unfold getBooking. cbn [bookings]. now rewrite G.
  - intros filters d I Eq. apply In_getBookings in I.
    destruct I as (b' & _ & W').
    pose proof (withDetails_booking _ _ _ W'). congruence.
Qed.

(** ** Who may change rooms *)

(** X14.  Without the admin role, and so also without a session, each of
    the three room requests that write is answered 403 and leaves the
    store as it is. *)
Theorem room_routes_admin_only :
  forall user id body env st,
    hasRole user admin = false ->
    POST_rooms user body env st = (Message 403 "Admin access required", st)
    /\ PUT_room user id body st = (Message 403 "Admin access required", st)
    /\ DELETE_room user id st = (Message 403 "Admin access required", st).
Proof.
  intros user id body env st H. unfold POST_rooms, PUT_room, DELETE_room.
  rewrite H. repeat split.
Qed.


(** ** An invariant of the store *)

Lemma keyedBy_empty {V : Type} (id : V -> string) : keyedBy id JsMap.empty.
Proof. split; constructor. Qed.

(** X16.  In a store in which every user, room and booking is kept under
    the identifier it carries and no key occurs twice, this is still so
    after each of the operations of [MemStorage] that write, including a
    creation whose drawn identifier is already in use. *)
Theorem wellKeyed_kept :
  forall st env id insertUser insertRoom roomUpdate insertBooking bookingUpdate,
    wellKeyed st ->
    wellKeyed (snd (createUser env st insertUser))
    /\ wellKeyed (snd (createRoom env st insertRoom))
    /\ wellKeyed (snd (updateRoom st id roomUpdate))
    /\ wellKeyed (snd (deleteRoom st id))
    /\ wellKeyed (snd (createBooking env st insertBooking))
    /\ wellKeyed (snd (updateBooking st id bookingUpdate))
    /\ wellKeyed (snd (deleteBooking st id)).
Proof.
  intros st env id iu ir ru ib bu (U & R & B).
  split; [|split; [|split; [|split; [|split; [|split]]]]].
  - unfold createUser. cbn [snd]. split; [|split]; cbn [users rooms bookings];
      [now apply keyedBy_set | assumption | assumption].
  - unfold createRoom. cbn [snd]. split; [|split]; cbn [users rooms bookings];
      [assumption | now apply keyedBy_set | assumption].
  - unfold updateRoom.
    destruct (JsMap.get (rooms st) id) as [r|] eqn:G; cbn [snd];
      [|exact (conj U (conj R B))].
    split; [|split]; cbn [users rooms bookings]; [assumption | | assumption].
    apply keyedBy_set; [|assumption].
    cbn [Room.id]. eapply keyedBy_get; eassumption.
  - unfold deleteRoom.
    destruct (JsMap.delete (rooms st) id) as [e r'] eqn:D. cbn [snd].
    split; [|split]; cbn [users rooms bookings]; [assumption | | assumption].
    replace r' with (snd (JsMap.delete (rooms st) id)) by now rewrite D.
    now apply keyedBy_delete.
  - unfold createBooking. cbn [snd].
    split; [|split]; cbn [users rooms bookings];
      [assumption | assumption | now apply keyedBy_set].
  - unfold updateBooking.
    destruct (JsMap.get (bookings st) id) as [b|] eqn:G; cbn [snd];
      [|exact (conj U (conj R B))].
    split; [|split]; cbn [users rooms bookings]; [assumption | assumption |].
    apply keyedBy_set; [|assumption].
    unfold merge. cbn [Booking.id]. eapply keyedBy_get; eassumption.
  - unfold deleteBooking.
    destruct (JsMap.delete (bookings st) id) as [e b'] eqn:D. cbn [snd].
    split; [|split]; cbn [users rooms bookings]; [assumption | assumption |].
    replace b' with (snd (JsMap.delete (bookings st) id)) by now rewrite D.
    now apply keyedBy_delete.
Qed.

(** ** Who may change bookings *)

(** X17.  A booking request changes the store only when it is allowed to:
    a creation only for a user with the faculty role, an update or a
    cancellation only for a booking that [getBooking] resolves and a user
    who is an administrator or the faculty user of that booking. *)
Theorem booking_routes_guarded :
  forall getTime user id body env st,
    (snd (POST_bookings getTime user body env st) <> st ->
     hasRole user faculty = true)
    /\ (snd (PUT_booking user id body st) <> st ->
        exists d, getBooking st id = Some d /\ mayEdit user d = true)
    /\ (snd (DELETE_booking user id st) <> st ->
        exists d, getBooking st id = Some d /\ mayEdit user d = true).
Proof.
  intros getTime user id body env st. repeat split.
  - unfold POST_bookings, hasRole. destruct user as [u|]; simpl;
      [|congruence].
    destruct (Role_eqb (User.role u) faculty); simpl; congruence.
  - unfold PUT_booking. destruct user as [u|]; simpl; [|congruence].
    destruct (getBooking st id) as [d|]; simpl; [|congruence].
    destruct (mayEdit (Some u) d) eqn:M; simpl; congruence.
  - unfold DELETE_booking. destruct user as [u|]; simpl; [|congruence].
    destruct (getBooking st id) as [d|]; simpl; [|congruence].
    destruct (mayEdit (Some u) d) eqn:M; simpl; [|congruence].
    intros _. now exists d.
Qed.


(** ** Who may read bookings *)

(** X19.  [GET /api/bookings/:id] sends a booking exactly when
    [getBooking] resolves it and the user is an administrator, a student
    or the faculty user of the booking; the booking sent is the one read
    from the store. *)
Theorem GET_booking_exact :
  forall user id st code d,
    GET_booking user id st = Json code d
    <-> getBooking st id = Some d
        /\ code = 200
        /\ exists u,
            user = Some u
            /\ (User.role u = admin \/ User.role u = student
                \/ User.id u = Booking.facultyId (BookingWithDetails.booking d)).
Proof.
  intros user id st code d. unfold GET_booking. split.
  - destruct user as [u|]; [|discriminate].
    destruct (getBooking st id) as [d'|]; [|discriminate].
    destruct (Role_eqb (User.role u) admin) eqn:A; simpl.
    + intros [= <- <-]. repeat split. exists u. split; [reflexivity|].
      left. now destruct (User.role u).
    + destruct (Role_eqb (User.role u) student) eqn:S; simpl.
      * intros [= <- <-]. repeat split. exists u. split; [reflexivity|].
        right. left. now destruct (User.role u).
      * destruct (String.eqb_spec (User.id u)
                    (Booking.facultyId (BookingWithDetails.booking d')));
          simpl; [|discriminate].
        intros [= <- <-]. repeat split. exists u. auto.
  - intros (G & -> & u & -> & H). rewrite G.
    destruct H as [H|[H|H]].
    + rewrite H. reflexivity.
    + rewrite H. reflexivity.
    + unfold isUser. rewrite H, String.eqb_refl.
      now rewrite !andb_false_r.
Qed.

Lemma passes_equal v b (get : Booking.t -> string) :
  v <> EmptyString ->
  passes (Some v) (fun v b => String.eqb (get b) v) b = true -> get b = v.
Proof.
  intros N. unfold passes, Js.truthy.
  destruct (String.eqb_spec v EmptyString); [contradiction|]. simpl.
  now intros H%String.eqb_eq.
Qed.

(** X20.  [GET /api/bookings] scopes the listing by role.  A faculty user
    who names no [facultyId] receives only bookings of their own; a
    faculty user who names somebody else is answered 403; for a student
    the [facultyId] of the query is dropped; an administrator's query is
    run as it is. *)
Theorem GET_bookings_scope :
  forall getTime u query st,
    User.id u <> EmptyString ->
    (User.role u = faculty ->
     Js.truthy (f_facultyId query) = false ->
     exists l,
       GET_bookings getTime (Some u) query st = Json 200 l
       /\ forall d, In d l ->
            Booking.facultyId (BookingWithDetails.booking d) = User.id u)
    /\ (User.role u = faculty ->
        forall other,
          f_facultyId query = Some other ->
          other <> EmptyString -> other <> User.id u ->
          GET_bookings getTime (Some u) query st
          = Message 403 "Cannot access other users' bookings")
    /\ (User.role u = student ->
        GET_bookings getTime (Some u) query st
        = Json 200 (getBookings getTime st
                      (Some {| f_roomId := f_roomId query;
                               f_facultyId := None;
                               f_status := f_status query;
                               f_dateFrom := f_dateFrom query;
                               f_dateTo := f_dateTo query |})))
    /\ (User.role u = admin ->
        GET_bookings getTime (Some u) query st
        = Json 200 (getBookings getTime st (Some query))).
Proof.
  intros getTime u query st Nid. repeat split.
  - intros R T. unfold GET_bookings. rewrite R, T. simpl.
    eexists. split; [reflexivity|].
    intros d I. apply In_getBookings_iff in I.
    destruct I as (b & _ & M & W).
    rewrite (withDetails_booking _ _ _ W).
    unfold matchesFilters in M. cbn [f_facultyId] in M.
    rewrite !andb_true_iff in M. destruct M as ((((_ & M) & _) & _) & _).
    now apply (passes_equal (User.id u) b Booking.facultyId).
  - intros R other Q N1 N2. unfold GET_bookings. rewrite R, Q. simpl.
    unfold Js.truthy.
    destruct (String.eqb_spec other EmptyString); [contradiction|]. simpl.
    destruct (String.eqb_spec (User.id u) other); [congruence|]. reflexivity.
  - intros R. unfold GET_bookings. rewrite R. simpl.
    now destruct (Js.truthy (f_facultyId query)).
  - intros R. unfold GET_bookings. rewrite R. simpl.
    now destruct query.
Qed.

(** ** When a creation is refused as a conflict *)



(** ** Cancelling twice *)

(** X22.  Cancelling a booking a second time is answered 204 like the
    first time and changes nothing more. *)
Theorem DELETE_booking_twice :
  forall user id st d,
    getBooking st id = Some d ->
    mayEdit user d = true ->
    let st1 := snd (DELETE_booking user id st) in
    DELETE_booking user id st1 = (Send 204, st1).
Proof.
  intros user id st d G M.
  pose proof (getBooking_stored _ _ _ G) as S.
  remember (BookingWithDetails.booking d) as b eqn:Hb.
  assert (E1 : DELETE_booking user id st
               = (Send 204,
                  {| users := users st; rooms := rooms st;
                     bookings := JsMap.set (bookings st) id
                                   (withStatus cancelled b) |})).
  { unfold DELETE_booking. destruct user as [u|]; [|discriminate].
    rewrite G, M. simpl. unfold updateBooking. rewrite S. reflexivity. }
  rewrite E1. cbn [snd].
  set (st1 := {| users := users st; rooms := rooms st;
                 bookings := JsMap.set (bookings st) id
                               (withStatus cancelled b) |}).
  assert (S1 : JsMap.get (bookings st1) id = Some (withStatus cancelled b))
    by apply get_set_same.
  assert (W : withDetails st b = Some d).
  { unfold getBooking in G. now rewrite S in G. }
  assert (G1 : exists d1, getBooking st1 id = Some d1
                          /\ mayEdit user d1 = mayEdit user d).
  { unfold getBooking. rewrite S1. unfold withDetails in *.
    cbn [rooms users st1 withStatus Booking.roomId Booking.facultyId].
    destruct (JsMap.get (rooms st) (Booking.roomId b)) as [r|];
      [|discriminate].
    destruct (JsMap.get (users st) (Booking.facultyId b)) as [u|];
      [|discriminate].
    eexists. split; [reflexivity|]. injection W as W. now rewrite <- W. }
  destruct G1 as (d1 & G1 & M1).
  unfold DELETE_booking. destruct user as [u|]; [|discriminate].
  rewrite G1, M1, M. simpl. unfold updateBooking. rewrite S1.
  assert (Mg : merge (withStatus cancelled b) cancelUpdate
               = withStatus cancelled b) by reflexivity.
  rewrite Mg, (set_same _ _ _ S1). reflexivity.
Qed.

(** ** Users in the store *)

Lemma find_app_new {A : Type} (p : A -> bool) (l : list A) (x : A) :
  find p (l ++ [x]) = match find p l with
                      | Some y => Some y
                      | None => if p x then Some x else None
                      end.
Proof.
  induction l as [|y l IH]; simpl; [reflexivity|].
  destruct (p y); [reflexivity | exact IH].
Qed.

(** X23.  A created user is read back by the drawn identifier, with the
    role "student" when the input names none and the password text as it
    was given.  With a new identifier, a lookup by user name or by e-mail
    address finds the new user when nobody had that name or address, and
    still finds the earlier user when somebody had: the new user is stored
    all the same. *)
Theorem createUser_lookup :
  forall env st insertUser,
    getUser st (randomUUID env) = None ->
    let (user, st') := createUser env st insertUser in
    getUser st' (randomUUID env) = Some user
    /\ User.role user
       = match InsertUser.role insertUser with Some r => r | None => student end
    /\ User.password user = InsertUser.password insertUser
    /\ getUserByUsername st' (InsertUser.username insertUser)
       = match getUserByUsername st (InsertUser.username insertUser) with
         | Some earlier => Some earlier
         | None => Some user
         end
    /\ getUserByEmail st' (InsertUser.email insertUser)
       = match getUserByEmail st (InsertUser.email insertUser) with
         | Some earlier => Some earlier
         | None => Some user
         end.
Proof.
  intros env st iu Fresh. unfold createUser, getUser, getUserByUsername,
    getUserByEmail in *. cbn [users].
  split; [apply get_set_same|]. split; [reflexivity|]. split; [reflexivity|].
  rewrite (set_absent _ _ _ Fresh). unfold JsMap.values.
  rewrite map_app. cbn [map snd]. rewrite !find_app_new.
  cbn [User.username User.email]. rewrite !String.eqb_refl.
  split; reflexivity.
Qed.

(** ** A new store *)

(** X24.  When the five identifiers drawn by the constructor are pairwise
    distinct, a new store holds exactly the five default rooms, in the
    order of the source, each under its own identifier, and no user and no
    booking. *)
Theorem newMemStorage_rooms :
  forall e1 e2 e3 e4 e5,
    NoDup (map randomUUID [e1; e2; e3; e4; e5]) ->
    let st := newMemStorage [e1; e2; e3; e4; e5] in
    getRooms st
    = [ Room.mk (randomUUID e1) "Room A101" 30 (now e1);
        Room.mk (randomUUID e2) "Room B205" 25 (now e2);
        Room.mk (randomUUID e3) "Lab C301" 20 (now e3);
        Room.mk (randomUUID e4) "Conference Room D401" 15 (now e4);
        Room.mk (randomUUID e5) "Auditorium E501" 100 (now e5) ]
    /\ JsMap.keys (rooms st) = map randomUUID [e1; e2; e3; e4; e5]
    /\ users st = [] /\ bookings st = []
    /\ wellKeyed st.
Proof.
  intros e1 e2 e3 e4 e5 ND.
  assert (D : forall i j, (i < j < 5)%nat ->
                nth i (map randomUUID [e1; e2; e3; e4; e5]) EmptyString
                <> nth j (map randomUUID [e1; e2; e3; e4; e5]) EmptyString).
  { intros i j H E.
    assert (K : i = j); [|clear - H K; lia].
    apply (proj1 (NoDup_nth _ EmptyString) ND);
      [simpl; clear - H; lia | simpl; clear - H; lia | exact E]. }
  assert (R : rooms (newMemStorage [e1; e2; e3; e4; e5])
              = [ (randomUUID e1, Room.mk (randomUUID e1) "Room A101" 30 (now e1));
                  (randomUUID e2, Room.mk (randomUUID e2) "Room B205" 25 (now e2));
                  (randomUUID e3, Room.mk (randomUUID e3) "Lab C301" 20 (now e3));
                  (randomUUID e4,
                   Room.mk (randomUUID e4) "Conference Room D401" 15 (now e4));
                  (randomUUID e5,
                   Room.mk (randomUUID e5) "Auditorium E501" 100 (now e5)) ]).
  { unfold newMemStorage, initializeDefaultData, defaultRooms.
    cbn [combine fold_left fst snd rooms users bookings InsertRoom.name
         InsertRoom.capacity JsMap.empty JsMap.set].
    pose proof (D 0%nat 1%nat ltac:(lia)) as D01.
    pose proof (D 0%nat 2%nat ltac:(lia)) as D02.
    pose proof (D 0%nat 3%nat ltac:(lia)) as D03.
    pose proof (D 0%nat 4%nat ltac:(lia)) as D04.
    pose proof (D 1%nat 2%nat ltac:(lia)) as D12.
    pose proof (D 1%nat 3%nat ltac:(lia)) as D13.
    pose proof (D 1%nat 4%nat ltac:(lia)) as D14.
    pose proof (D 2%nat 3%nat ltac:(lia)) as D23.
    pose proof (D 2%nat 4%nat ltac:(lia)) as D24.
    pose proof (D 3%nat 4%nat ltac:(lia)) as D34.
    cbn [nth map] in *.
    repeat match goal with
           | |- context [String.eqb ?a ?b] =>
               destruct (String.eqb_spec a b); [contradiction|];
               cbn [JsMap.set]
           end.
    reflexivity. }
  cbv zeta. unfold getRooms, JsMap.values, JsMap.keys. rewrite R.
  split; [reflexivity|]. split; [reflexivity|].
  split; [reflexivity|]. split; [reflexivity|].
  split; [split; constructor|]. split; [|split; constructor].
  rewrite R. split; [exact ND | repeat constructor].
Qed.

(** ** The client against the server *)

(** X25.  Whenever the booking dialog offers the cancel button for a
    booking that the store resolves, the server carries the cancellation
    out: the request is answered 204 and the booking is stored as
    cancelled.  The button is never offered for a cancelled booking. *)
Theorem canCancelBooking_sound :
  forall user id st d,
    getBooking st id = Some d ->
    canCancelBooking user d = true ->
    let (res, st') := DELETE_booking user id st in
    res = Send 204
    /\ JsMap.get (bookings st') id
       = Some (withStatus cancelled (BookingWithDetails.booking d))
    /\ Booking.status (BookingWithDetails.booking d) <> cancelled.
Proof.
  intros user id st d G C.
  pose proof (getBooking_stored _ _ _ G) as S.
  unfold canCancelBooking in C.
  destruct (Status_eqb (Booking.status (BookingWithDetails.booking d))
              cancelled) eqn:St; [discriminate|].
  assert (M : mayEdit user d = true).
  { unfold mayEdit. destruct (hasRole user admin); [reflexivity|].
    simpl. destruct (hasRole user faculty); simpl in C; [|discriminate].
    now destruct (isUser user _). }
  unfold DELETE_booking. destruct user as [u|]; [|discriminate].
  rewrite G, M. simpl. unfold updateBooking. rewrite S.
  cbn [bookings]. split; [reflexivity|]. split; [apply get_set_same|].
  intros E. rewrite E in St. discriminate.
Qed.

(** X26.  On the dashboard the three counters by status add up to the
    total: every booking is counted under exactly one of them. *)
Theorem stats_add_up :
  forall bookings,
    totalBookings (stats bookings)
    = (confirmedBookings (stats bookings) + pendingBookings (stats bookings)
       + cancelledBookings (stats bookings))%nat.
Proof.
  intros l. unfold stats. cbn [totalBookings confirmedBookings pendingBookings
                               cancelledBookings].
  induction l as [|d l IH]; [reflexivity|].
  cbn [filter List.length]. unfold hasStatus in *.
  destruct (Booking.status (BookingWithDetails.booking d));
    cbn [Status_eqb List.length]; lia.
Qed.

Lemma sorted_app {A : Type} (R : A -> A -> Prop) (l1 l2 : list A) :
  StronglySorted R (l1 ++ l2) ->
  StronglySorted R l1 /\ forall x y, In x l1 -> In y l2 -> R x y.
Proof.
  induction l1 as [|a l1 IH]; simpl; intros S.
  - split; [constructor | intros x y []].
  - inversion S as [|? ? S1 F]; subst. destruct (IH S1) as [S2 H].
    rewrite Forall_forall in F. split.
    + constructor; [exact S2|]. apply Forall_forall. intros x I.
      apply F, in_or_app. now left.
    + intros x y [<-|I] J; [apply F, in_or_app; now right | now apply H].
Qed.

(** X27.  The dashboard shows five bookings, or all of them when there
    are fewer, newest first, and they are the newest ones: the bookings
    shown and the bookings left out make up the listing, and none that is
    left out was created after one that is shown. *)
Theorem recentBookings_newest :
  forall bookings,
    let created := fun d => Booking.createdAt (BookingWithDetails.booking d) in
    let recent := recentBookings bookings in
    List.length recent = Nat.min 5 (List.length bookings)
    /\ StronglySorted (fun a b => created b <= created a) recent
    /\ exists rest,
        Permutation (recent ++ rest) bookings
        /\ forall x y, In x recent -> In y rest -> created y <= created x.
Proof.
  intros l created recent. unfold recent, recentBookings.
  assert (S : StronglySorted (fun a b => created b <= created a)
                (Js.sort byNewest l)).
  { assert (S0 : StronglySorted (fun a b => - created a <= - created b)
                   (Js.sort byNewest l)).
    { apply sort_sorted. intros x y _ _. unfold byNewest, created. simpl.
      f_equal. lia. }
    revert S0. apply StronglySorted_ind; [constructor|].
    intros a l0 _ IH F. constructor; [exact IH|].
    rewrite Forall_forall in F |- *. intros x I. specialize (F x I). lia. }
  rewrite <- (firstn_skipn 5 (Js.sort byNewest l)) in S.
  apply sorted_app in S. destruct S as [S1 S2].
  split.
  { rewrite length_firstn. f_equal. apply Permutation_length, sort_perm. }
  split; [exact S1|].
  exists (skipn 5 (Js.sort byNewest l)). split.
  - rewrite firstn_skipn. apply sort_perm.
  - intros x y Ix Iy. now apply S2.
Qed.

(** X28.  On the "My Bookings" page no booking is both upcoming and past,
    a cancelled booking is never upcoming, and a booking that is not
    cancelled and whose date is valid is in exactly one of the two lists.
    A cancelled booking dated today or later is in neither. *)
Theorem upcoming_and_past :
  forall dateOf today bookings d,
    In d bookings ->
    let b := BookingWithDetails.booking d in
    ~ (In d (upcomingBookings dateOf today bookings)
       /\ In d (pastBookings dateOf today bookings))
    /\ (In d (upcomingBookings dateOf today bookings) ->
        Booking.status b <> cancelled)
    /\ (Booking.status b <> cancelled ->
        dateOf (Booking.date b) <> None -> today <> None ->
        In d (upcomingBookings dateOf today bookings)
        \/ In d (pastBookings dateOf today bookings))
    /\ (Booking.status b = cancelled ->
        num_ge (dateOf (Booking.date b)) today = true ->
        ~ In d (upcomingBookings dateOf today bookings)
        /\ ~ In d (pastBookings dateOf today bookings)).
Proof.
  intros dateOf today l d I b. unfold upcomingBookings, pastBookings.
  rewrite !filter_In. fold b. unfold num_ge, num_lt.
  destruct (dateOf (Booking.date b)) as [x|], today as [t|];
    destruct (Booking.status b); simpl;
    try destruct (Z.geb_spec x t); try destruct (Z.ltb_spec x t);
    repeat split; try tauto; try congruence; try lia;
    try (intros [[_ H] _]; discriminate);
    try (intros [_ H]; discriminate);
    try (intros [_ [_ H]]; discriminate); intuition (try discriminate; try lia).
Qed.

(** X29.  The menu offers "Book Room" exactly to the users whom the
    server lets create bookings and "Manage Rooms" exactly to the users
    whom it lets write rooms; without a session it offers nothing. *)
Theorem filteredNavigation_matches_server :
  forall user,
    existsb (fun item => String.eqb (nav_href item) "/book-room")
            (filteredNavigation user) = hasRole user faculty
    /\ existsb (fun item => String.eqb (nav_href item) "/manage-rooms")
               (filteredNavigation user) = hasRole user admin
    /\ (user = None -> filteredNavigation user = []).
Proof.
  intros [u|].
  - unfold filteredNavigation, hasRole. destruct (User.role u);
      repeat split; discriminate.
  - repeat split.
Qed.

(** ** Further instances *)

Lemma getBookings_ascending_witness :
  map (fun d => Booking.id (BookingWithDetails.booking d))
      (getBookings Js.utcDateTime Further.twoBooked None) = ["b-1"; "b-2"]
  /\ StronglySorted
       (fun a b => exists ta tb,
            startOf Js.utcDateTime a = Some ta
            /\ startOf Js.utcDateTime b = Some tb /\ ta <= tb)
       (getBookings Js.utcDateTime Further.twoBooked None).
Proof.
  split; [reflexivity|].
  apply (getBookings_ascending Js.utcDateTime Further.twoBooked None).
  intros b I. vm_compute in I. destruct I as [<-|[<-|[]]]; vm_compute;
    discriminate.
Defined.

Lemma timesOverlap_string_order_witness :
  (timesOverlap "09:00" "10:00" "09:30" "10:30" = true
   <-> Js.lt "09:00" "10:30" = true /\ Js.lt "09:30" "10:00" = true)
  /\ timesOverlap "09:00" "10:00" "09:30" "10:30"
     = timesOverlap "09:30" "10:30" "09:00" "10:00".
Proof.
  apply (timesOverlap_string_order "09:00" "10:00" "09:30" "10:30");
    reflexivity.
Defined.

Lemma endAfterStart_string_order_witness :
  endAfterStart (Some "10:00") (Some "09:00") = Js.lt "10:00" "09:00".
Proof.
  apply (endAfterStart_string_order "10:00" "09:00"); reflexivity.
Defined.

Lemma insertBookingSchema_no_colon_witness :
  insertBookingSchema Further.noColon = ZodError.
Proof.
  apply (insertBookingSchema_no_colon Further.noColon "0900" "1000");
    try reflexivity; try discriminate.
  left. intros c I. simpl in I.
  repeat (destruct I as [<-|I]; [discriminate|]). destruct I.
Defined.

Lemma insertBookingSchema_empty_time_witness :
  insertBookingSchema Further.noStart
  = Data (InsertBooking.mk "room-1" "u-alice" "CS101" "2024-01-10"
            EmptyString "10:00" None None None).
Proof.
  apply (insertBookingSchema_empty_time Further.noStart);
    try reflexivity.
  now left.
Defined.

Lemma createBooking_read_back_witness :
  getBooking
    (snd (createBooking (Campus.env "b-1" 10) Campus.store Further.aliceInsert))
    "b-1"
  = Some Instances.aliceDetails.
Proof.
  pose proof (createBooking_read_back (Campus.env "b-1" 10) Campus.store
                Further.aliceInsert
                (Room.mk "room-1" "Room A101" 30 0) Campus.alice
                eq_refl eq_refl) as H.
  destruct (createBooking (Campus.env "b-1" 10) Campus.store
              Further.aliceInsert) as [b st'] eqn:E.
  destruct H as [H1 H2]. cbn [snd]. refine (eq_trans H1 _).
  rewrite H2. reflexivity.
Defined.

Lemma updateBooking_nothing_witness :
  updateBooking Campus.booked "b-1" BookingUpdate.none
  = (Some Campus.aliceBooking, Campus.booked).
Proof.
  apply (updateBooking_nothing Campus.booked "b-1" Campus.aliceBooking).
  reflexivity.
Defined.

Lemma room_routes_admin_only_witness :
  POST_rooms (Some Campus.alice) Scenario.sameName (Campus.env "room-6" 20)
    Campus.store
  = (Message 403 "Admin access required", Campus.store)
  /\ PUT_room (Some Campus.alice) "room-1" Scenario.sameName Campus.store
     = (Message 403 "Admin access required", Campus.store)
  /\ DELETE_room (Some Campus.alice) "room-1" Campus.store
     = (Message 403 "Admin access required", Campus.store).
Proof.
  apply (room_routes_admin_only (Some Campus.alice) "room-1" Scenario.sameName
           (Campus.env "room-6" 20) Campus.store).
  reflexivity.
Defined.


Lemma wellKeyed_campus : wellKeyed Campus.store.
Proof.
  repeat split; cbn;
    repeat (constructor; [try (simpl; intuition discriminate); reflexivity|]);
    constructor.
Qed.

Lemma wellKeyed_kept_witness :
  wellKeyed Campus.store
  /\ wellKeyed (snd (createBooking (Campus.env "b-1" 10) Campus.store
                       Further.aliceInsert))
  /\ wellKeyed (snd (deleteRoom Campus.store "room-1")).
Proof.
  pose proof (wellKeyed_kept Campus.store (Campus.env "b-1" 10) "room-1"
                Further.carol (InsertRoom.mk "Room A101" 30)
                (RoomUpdate.mk None None) Further.aliceInsert
                BookingUpdate.none wellKeyed_campus)
    as (_ & _ & _ & D & C & _).
  split; [exact wellKeyed_campus|]. split; [exact C | exact D].
Defined.

Lemma GET_bookings_scope_witness :
  GET_bookings Js.utcDateTime (Some Campus.alice)
    {| f_roomId := None; f_facultyId := None; f_status := None;
       f_dateFrom := None; f_dateTo := None |}
    Further.twoBooked
  = Json 200 [Instances.aliceDetails]
  /\ GET_bookings Js.utcDateTime (Some Campus.alice)
       {| f_roomId := None; f_facultyId := Some "u-bob"; f_status := None;
          f_dateFrom := None; f_dateTo := None |}
       Further.twoBooked
     = Message 403 "Cannot access other users' bookings".
Proof.
  split; [vm_compute; reflexivity|].
  pose proof (GET_bookings_scope Js.utcDateTime Campus.alice
                {| f_roomId := None; f_facultyId := Some "u-bob";
                   f_status := None; f_dateFrom := None; f_dateTo := None |}
                Further.twoBooked ltac:(discriminate))
    as (_ & Other & _).
  apply (Other eq_refl "u-bob" eq_refl); discriminate.
Defined.


Lemma DELETE_booking_twice_witness :
  DELETE_booking (Some Campus.alice) "b-1" Scenario.aliceCancelled
  = (Send 204, Scenario.aliceCancelled).
Proof.
  apply (DELETE_booking_twice (Some Campus.alice) "b-1" Campus.booked
           Instances.aliceDetails); reflexivity.
Defined.

Lemma createUser_lookup_witness :
  let st' := snd (createUser (Campus.env "u-carol" 4) Campus.store Further.carol) in
  getUserByUsername st' "carol"
  = Some (User.mk "u-carol" "carol" "carol@campus.example" "scrypt-c" "Carol"
                  student 4)
  /\ getUserByUsername Campus.store "carol" = None.
Proof.
  pose proof (createUser_lookup (Campus.env "u-carol" 4) Campus.store
                Further.carol eq_refl) as H.
  cbv zeta.
  destruct (createUser (Campus.env "u-carol" 4) Campus.store Further.carol)
    as [user st'] eqn:E.
  destruct H as (_ & _ & _ & N & _). cbn [snd].
  split; [|reflexivity].
  refine (eq_trans N _). vm_compute in E. injection E as <- _.
  reflexivity.
Defined.

Lemma newMemStorage_rooms_witness :
  map Room.name (getRooms Campus.start)
  = ["Room A101"; "Room B205"; "Lab C301"; "Conference Room D401";
     "Auditorium E501"]
  /\ wellKeyed Campus.start.
Proof.
  pose proof (newMemStorage_rooms
                (Campus.env "room-1" 0) (Campus.env "room-2" 0)
                (Campus.env "room-3" 0) (Campus.env "room-4" 0)
                (Campus.env "room-5" 0)) as H.
  cbv zeta in H.
  destruct H as (R & _ & _ & _ & W).
  - cbn. repeat (constructor; [simpl; intuition discriminate|]). constructor.
  - split; [|exact W].
    change Campus.start with
      (newMemStorage [Campus.env "room-1" 0; Campus.env "room-2" 0;
                      Campus.env "room-3" 0; Campus.env "room-4" 0;
                      Campus.env "room-5" 0]).
    rewrite R. reflexivity.
Defined.

Lemma canCancelBooking_sound_witness :
  canCancelBooking (Some Campus.alice) Instances.aliceDetails = true
  /\ DELETE_booking (Some Campus.alice) "b-1" Campus.booked
     = (Send 204, Scenario.aliceCancelled).
Proof.
  split; [reflexivity|].
  pose proof (canCancelBooking_sound (Some Campus.alice) "b-1" Campus.booked
                Instances.aliceDetails eq_refl eq_refl) as H.
  destruct (DELETE_booking (Some Campus.alice) "b-1" Campus.booked)
    as [res st'] eqn:E.
  destruct H as (-> & _). vm_compute in E. injection E as <-. reflexivity.
Defined.

Lemma upcoming_and_past_witness :
  In Instances.aliceDetails
     (upcomingBookings Further.midnight (Further.midnight "2024-01-09")
        [Instances.aliceDetails])
  \/ In Instances.aliceDetails
        (pastBookings Further.midnight (Further.midnight "2024-01-09")
           [Instances.aliceDetails]).
Proof.
  pose proof (upcoming_and_past Further.midnight (Further.midnight "2024-01-09")
                [Instances.aliceDetails] Instances.aliceDetails
                (or_introl eq_refl)) as H.
  cbv zeta in H. destruct H as (_ & _ & H & _).
  apply H; vm_compute; discriminate.
Defined.

